(** * crudadmin.session.storage: the session-store factory and key namespacer

    A shallow embedding of [src/crudadmin/session/storage.py]:
    - the base object [AbstractSessionStorage] ([__init__], [get_key],
      [generate_session_id]);
    - the factory [get_session_storage] and [SessionStorage.__new__].

    The keyword bag [**kwargs] is a finite map from strings to Python
    values.  The concrete driver classes live in [session/backends/*], outside
    this file of the repository: a driver object is represented by the
    constructor call that builds it (class and keyword arguments), what a
    constructor does with a call (return the object, or raise) is a
    parameter of the factory, and every constructor call is logged, in
    program order, next to the outcome.  The imports of the driver modules
    are taken to succeed. *)

From Stdlib Require Import ZArith Ascii String List Lia ZifyBool.
From stdpp Require Import base option list gmap strings fin_maps.

Local Open Scope string_scope.
Local Open Scope Z_scope.

(** ** Python values that can sit in the keyword bag *)

Inductive Value : Type :=
| VNone
| VBool (b : bool)
| VInt (z : Z)
| VStr (s : string)
| VObj (id : positive) (truth : bool) (eq_str : string → bool).
    (* any other object (a DatabaseConfig instance, a dict, a list, a mock,
       ...), with what [bool()] gives on it and what its [__eq__] answers
       when it is compared with a string *)

(** [bool(v)]: the truth value the test [if not db_config] looks at. *)
Definition truthy (v : Value) : bool :=
  match v with
  | VNone => false
  | VBool b => b
  | VInt z => negb (z =? 0)
  | VStr s => negb (String.eqb s "")
  | VObj _ truth _ => truth
  end.

(** The truth value of [v == "lit"] for a string literal: a [str] compares
    by content; [None], a [bool] and an [int] are never equal to a string;
    any other object decides through its own [__eq__]. *)
Definition py_eq_str (v : Value) (lit : string) : bool :=
  match v with
  | VStr s => String.eqb s lit
  | VObj _ _ eq_str => eq_str lit
  | VNone | VBool _ | VInt _ => false
  end.

(** [**kwargs]: a dict with string keys. *)
Abbreviation Kwargs := (gmap string Value).

(** [k in kwargs]. *)
Definition py_in (k : string) (kwargs : Kwargs) : bool :=
  bool_decide (is_Some (kwargs !! k)).

(** [kwargs.pop(k, default)]: the value found (or the default) and the dict
    after the removal. *)
Definition pop (k : string) (default : Value) (kwargs : Kwargs) : Value * Kwargs :=
  (from_option id default (kwargs !! k), delete k kwargs).

(** [{k: v for k, v in kwargs.items() if k in keys}]. *)
Definition only_keys (keys : list string) (kwargs : Kwargs) : Kwargs :=
  filter (λ kv, kv.1 ∈ keys) kwargs.

(** [any(param in kwargs for param in params)]. *)
Definition any_in (params : list string) (kwargs : Kwargs) : bool :=
  existsb (λ param, py_in param kwargs) params.

(** ** Driver objects and the effects of the factory *)

(** A constructed store, named after the class whose constructor was called,
    with the keyword arguments it received.  [HybridSessionStorage] receives
    its two tiers as [redis_storage=] and [database_storage=]. *)
Inductive Store : Type :=
| RedisSessionStorage (kwargs : Kwargs)
| MemcachedSessionStorage (kwargs : Kwargs)
| MemorySessionStorage (kwargs : Kwargs)
| DatabaseSessionStorage (kwargs : Kwargs)
| HybridSessionStorage (redis_storage database_storage : Store) (kwargs : Kwargs).

Inductive Exception : Type :=
| ValueError (msg : string)
| TypeError (msg : string)
| OtherError (class msg : string).   (* whatever else a driver may raise *)

(** What the constructor of a driver class does with a call: [Some e] when
    it raises [e], [None] when it returns the object. *)
Abbreviation Drivers := (Store → option Exception).

(** A computation logs the constructor calls it makes (a call that raises
    included) and either raises or returns. *)
Record Run (A : Type) : Type := MkRun {
  constructed : list Store;
  outcome : Exception + A
}.
Arguments MkRun {A} _ _.
Arguments constructed {A} _.
Arguments outcome {A} _.

Definition ret {A} (a : A) : Run A := MkRun [] (inr a).
Definition raise {A} (e : Exception) : Run A := MkRun [] (inl e).
Definition bind {A B} (m : Run A) (f : A → Run B) : Run B :=
  match outcome m with
  | inl e => MkRun (constructed m) (inl e)
  | inr a => let r := f a in MkRun (constructed m ++ constructed r) (outcome r)
  end.
(** Calling a driver class: the call is logged; the object is returned, or
    the exception of the constructor goes up. *)
Definition construct (init : Drivers) (s : Store) : Run Store :=
  match init s with
  | Some e => MkRun [s] (inl e)
  | None => MkRun [s] (inr s)
  end.

#[global] Instance Run_ret : MRet Run := @ret.
#[global] Instance Run_bind : MBind Run := λ A B f m, bind m f.

(** ** The model type handed to the factory *)

Inductive ModelType : Type :=
| BaseModel
| Model (name : string).

(** ** [get_session_storage] *)

Definition redis_keys : list string :=
  ["prefix"; "expiration"; "host"; "port"; "db"; "username"; "password";
   "pool_size"; "connect_timeout"].
Definition memcached_keys : list string :=
  ["prefix"; "expiration"; "host"; "port"; "pool_size"].
Definition memory_keys : list string := ["prefix"; "expiration"].
Definition database_keys : list string := ["prefix"; "expiration"; "db_config"].

Definition get_session_storage (init : Drivers)
    (backend : string) (model_type : ModelType) (kwargs : Kwargs) : Run Store :=
  if String.eqb backend "redis" then
    let redis_kwargs := only_keys redis_keys kwargs in
    construct init (RedisSessionStorage redis_kwargs)
  else if String.eqb backend "memcached" then
    let memcached_kwargs := only_keys memcached_keys kwargs in
    construct init (MemcachedSessionStorage memcached_kwargs)
  else if String.eqb backend "memory" then
    let memory_kwargs := only_keys memory_keys kwargs in
    construct init (MemorySessionStorage memory_kwargs)
  else if String.eqb backend "database" then
    let database_kwargs := only_keys database_keys kwargs in
    construct init (DatabaseSessionStorage database_kwargs)
  else if String.eqb backend "hybrid" then
    let '(db_config, kwargs) := pop "db_config" VNone kwargs in
    if negb (truthy db_config) then
      raise (ValueError "db_config is required for hybrid backend")
    else
      let redis_params := ["db"; "username"; "password"] in
      let has_redis_params := any_in redis_params kwargs in
      (* [a or b]: the pop on the right runs only when [a] is false *)
      let '(use_redis, kwargs) :=
        if has_redis_params then (true, kwargs)
        else
          let '(cache_backend, kwargs) := pop "_cache_backend" (VStr "redis") kwargs in
          (py_eq_str cache_backend "redis", kwargs) in
      cache_storage ←
        (if use_redis then
           let cache_kwargs := only_keys redis_keys kwargs in
           construct init (RedisSessionStorage cache_kwargs)
         else
           let cache_kwargs := only_keys memcached_keys kwargs in
           construct init (MemcachedSessionStorage cache_kwargs));
      let database_kwargs := only_keys ["prefix"; "expiration"] kwargs in
      let database_kwargs := <["db_config" := db_config]> database_kwargs in
      let hybrid_kwargs := only_keys ["prefix"; "expiration"] kwargs in
      database_storage ← construct init (DatabaseSessionStorage database_kwargs);
      construct init (HybridSessionStorage cache_storage database_storage hybrid_kwargs)
  else
    raise (ValueError ("Unknown backend: " ++ backend)).

Module SessionStorage.

(** [SessionStorage.__new__(cls, backend="memory", **kwargs)]; [None] stands
    for a call that leaves [backend] out.  The body calls
    [get_session_storage(backend, BaseModel, **kwargs)]: a bag that holds
    "model_type" gives that parameter a second value, and the call raises
    before the body of [get_session_storage] runs. *)
Definition __new__ (init : Drivers)
    (backend : option string) (kwargs : Kwargs) : Run Store :=
  let backend := default "memory" backend in
  if py_in "model_type" kwargs then
    raise (TypeError
      "get_session_storage() got multiple values for argument 'model_type'")
  else
    let storage := get_session_storage init backend BaseModel kwargs in
    storage.

End SessionStorage.


(** ** The [uuid] module of the Python standard library, as far as
    [str(uuid4())] goes *)

Module Uuid.

(** [int.from_bytes(bytes, "big")]. *)
Definition int_from_bytes (bytes : list Byte.byte) : Z :=
  fold_left (λ acc b, acc * 256 + Z.of_N (Byte.to_N b)) bytes 0.

(** [UUID(bytes=bytes, version=version)]: the 128-bit [int] field of the
    object; [None] where the constructor raises. *)
Definition UUID (bytes : list Byte.byte) (version : Z) : option Z :=
  if negb (length bytes =? 16)%nat then None
  else
    let int := int_from_bytes bytes in
    if negb ((1 <=? version) && (version <=? 8)) then None
    else
      (* Set the variant to RFC 4122. *)
      let int := Z.land int (Z.lnot (Z.shiftl 0xc000 48)) in
      let int := Z.lor int (Z.shiftl 0x8000 48) in
      (* Set the version number. *)
      let int := Z.land int (Z.lnot (Z.shiftl 0xf000 64)) in
      let int := Z.lor int (Z.shiftl version 76) in
      Some int.

(** [uuid4()], with the result of [os.urandom(16)] made an argument. *)
Definition uuid4 (urandom : list Byte.byte) : option Z := UUID urandom 4.

Definition hex_digit (d : Z) : ascii :=
  nth (Z.to_nat d) (list_ascii_of_string "0123456789abcdef") "0"%char.

(** The hexadecimal digit of weight [16^i]. *)
Definition nibble (n : Z) (i : Z) : Z := Z.land (Z.shiftr n (4 * i)) 15.

(** ['%032x' % n] for [0 <= n < 2^128]: thirty-two digits, the most
    significant first. *)
Definition hex_032x (n : Z) : string :=
  string_of_list_ascii
    (map (λ i, hex_digit (nibble n (Z.of_nat i))) (rev (seq 0 32))).

(** [UUID.__str__]. *)
Definition UUID_str (int : Z) : string :=
  let hex := hex_032x int in
  substring 0 8 hex ++ "-" ++ substring 8 4 hex ++ "-" ++ substring 12 4 hex
    ++ "-" ++ substring 16 4 hex ++ "-"
    ++ substring 20 (String.length hex - 20) hex.

End Uuid.

(** ** The base object *)

Module AbstractSessionStorage.

Record t : Type := {
  prefix : string;
  expiration : Z
}.

(** [__init__(self, prefix="session:", expiration=1800)]; [None] stands for
    an argument that is left out. *)
Definition __init__ (prefix : option string) (expiration : option Z) : t :=
  {| prefix := default "session:" prefix;
     expiration := default 1800 expiration |}.

(** [generate_session_id]: [str(uuid4())]; the bytes [uuid4] draws from
    [os.urandom] are an argument. *)
Definition generate_session_id (self : t) (urandom : list Byte.byte) : option string :=
  Uuid.UUID_str <$> Uuid.uuid4 urandom.

(** Modelled from the spec: the operations that take an optional
    [expiration] (create, update, extend) are abstract here, and the
    drivers that implement them are in [session/backends/*].  The rule is
    the one of section 4.1: the construction-time value is used whenever an
    operation omits an explicit override. *)
Definition effective_expiration (self : t) (expiration : option Z) : Z :=
  default self.(AbstractSessionStorage.expiration) expiration.

(** [get_key]: the f-string [f"{self.prefix}{session_id}"]. *)
Definition get_key (self : t) (session_id : string) : string :=
  self.(prefix) ++ session_id.

End AbstractSessionStorage.

(** ** Vocabulary of the statements *)

(** The backend names the factory has a branch for. *)
Definition backends : list string :=
  ["redis"; "memcached"; "memory"; "database"; "hybrid"].

(** The cache-tier rule of the hybrid branch: a Redis-only key is present, or
    ["_cache_backend"] is absent or equals ["redis"]. *)
Definition equals_redis (option : option Value) : Prop :=
  ∃ v, option = Some v ∧ py_eq_str v "redis" = true.

Definition selects_redis (kwargs : Kwargs) : Prop :=
  (is_Some (kwargs !! "db") ∨ is_Some (kwargs !! "username")
   ∨ is_Some (kwargs !! "password"))
  ∨ kwargs !! "_cache_backend" = None
  ∨ equals_redis (kwargs !! "_cache_backend").

#[global] Instance equals_redis_dec option : Decision (equals_redis option).
Proof.
  destruct option as [v|].
  - destruct (py_eq_str v "redis") eqn:E.
    + left. exists v. split; [reflexivity|exact E].
    + right. intros (v' & Hv & He). injection Hv as <-. congruence.
  - right. intros (v' & Hv & _). discriminate Hv.
Defined.

#[global] Instance selects_redis_dec kwargs : Decision (selects_redis kwargs).
Proof. unfold selects_redis. apply _. Defined.

(** The cache driver that rule picks, built from the bag. *)
Definition cache_tier (kwargs : Kwargs) : Store :=
  if decide (selects_redis kwargs)
  then RedisSessionStorage (only_keys redis_keys kwargs)
  else MemcachedSessionStorage (only_keys memcached_keys kwargs).

(** The calls made out of a planned sequence of constructor calls: up to
    and including the first one that raises. *)
Fixpoint made (init : Drivers) (planned : list Store) : list Store :=
  match planned with
  | [] => []
  | s :: planned =>
      s :: match init s with Some _ => [] | None => made init planned end
  end.

(** Three constructor calls tried in order; the object the last one builds
    is returned. *)
Definition in_order (init : Drivers) (first second third : Store) : Run Store :=
  _ ← construct init first; _ ← construct init second; construct init third.

(** Drivers whose constructors accept every call, and drivers among which
    [DatabaseSessionStorage] insists on its [db_config] argument. *)
Definition lenient : Drivers := λ _, None.
Definition strict_database : Drivers := λ s,
  match s with
  | DatabaseSessionStorage kwargs =>
      if py_in "db_config" kwargs then None
      else Some (TypeError "missing 1 required positional argument: 'db_config'")
  | _ => None
  end.

(** The keyword arguments a constructor call carries. *)
Definition store_kwargs (s : Store) : Kwargs :=
  match s with
  | RedisSessionStorage kw | MemcachedSessionStorage kw | MemorySessionStorage kw
  | DatabaseSessionStorage kw | HybridSessionStorage _ _ kw => kw
  end.

(** The allow-list of the class of a store; the coordinator itself takes the
    common options only. *)
Definition allow_list (s : Store) : list string :=
  match s with
  | RedisSessionStorage _ => redis_keys
  | MemcachedSessionStorage _ => memcached_keys
  | MemorySessionStorage _ => memory_keys
  | DatabaseSessionStorage _ => database_keys
  | HybridSessionStorage _ _ _ => ["prefix"; "expiration"]
  end.

(** The two configuration errors of the factory. *)
Definition db_config_error : Exception :=
  ValueError "db_config is required for hybrid backend".
Definition unknown_backend_error (backend : string) : Exception :=
  ValueError ("Unknown backend: " ++ backend).

(** A hybrid store over the bag: a cache driver (Redis or Memcached) as
    [redis_storage], a [DatabaseSessionStorage] that received the bag's
    [db_config] as [database_storage]; [calls] are the constructor calls
    made to get there. *)
Definition hybrid_composition
    (kwargs : Kwargs) (calls : list Store) (store : Store) : Prop :=
  ∃ cache_storage database_kwargs hybrid_kwargs db_config,
    store = HybridSessionStorage cache_storage
              (DatabaseSessionStorage database_kwargs) hybrid_kwargs
    ∧ calls = [cache_storage; DatabaseSessionStorage database_kwargs; store]
    ∧ (cache_storage = RedisSessionStorage (only_keys redis_keys kwargs)
       ∨ cache_storage = MemcachedSessionStorage (only_keys memcached_keys kwargs))
    ∧ kwargs !! "db_config" = Some db_config
    ∧ truthy db_config = true
    ∧ database_kwargs !! "db_config" = Some db_config.

(** Sample values and bags for the closed instances below. *)
Definition a_db_config : Value := VObj 1 true (λ _, false).
Definition equal_to_anything : Value := VObj 2 true (λ _, true).
Definition bag_memcached : Kwargs :=
  <["db_config" := a_db_config]> (<["host" := VStr "cache.local"]>
    (<["expiration" := VInt 60]> (<["verbose" := VBool true]>
      (<["_cache_backend" := VStr "memcached"]> ∅)))).
Definition bag_redis_forced : Kwargs := <["password" := VStr "pw"]> bag_memcached.
Definition bag_other_cache : Kwargs :=
  <["db_config" := a_db_config]> (<["_cache_backend" := VNone]>
    (<["port" := VInt 11211]> ∅)).
Definition bag_mock_cache : Kwargs :=
  <["db_config" := a_db_config]> (<["_cache_backend" := equal_to_anything]> ∅).
Definition bag_model_type : Kwargs :=
  <["model_type" := VObj 3 true (λ _, false)]> (<["prefix" := VStr "adm:"]> ∅).
Definition bag_no_db_config : Kwargs :=
  <["host" := VStr "cache.local"]> (<["prefix" := VStr "adm:"]> ∅).

(** The keys a backend looks at anywhere in its branch. *)
Definition inspected_keys (backend : string) : list string :=
  if String.eqb backend "redis" then redis_keys
  else if String.eqb backend "memcached" then memcached_keys
  else if String.eqb backend "memory" then memory_keys
  else if String.eqb backend "database" then database_keys
  else if String.eqb backend "hybrid" then
    "db_config" :: "_cache_backend" :: redis_keys
  else [].

(** The canonical text of a version-4 UUID, position by position: groups of
    8, 4, 4, 4 and 12 lowercase hexadecimal digits separated by dashes, the
    third group starting with "4" and the fourth with "8", "9", "a" or "b". *)
Definition is_hex_digit (c : ascii) : bool :=
  existsb (Ascii.eqb c) (list_ascii_of_string "0123456789abcdef").
Definition is_dash (c : ascii) : bool := Ascii.eqb c "-".
Definition is_version4 (c : ascii) : bool := Ascii.eqb c "4".
Definition is_rfc4122_variant (c : ascii) : bool :=
  existsb (Ascii.eqb c) (list_ascii_of_string "89ab").

Fixpoint matches (pattern : list (ascii → bool)) (s : string) : bool :=
  match pattern, s with
  | [], EmptyString => true
  | p :: pattern, String c s => p c && matches pattern s
  | _, _ => false
  end.

Definition uuid4_pattern : list (ascii → bool) :=
  repeat is_hex_digit 8 ++ [is_dash]
  ++ repeat is_hex_digit 4 ++ [is_dash]
  ++ [is_version4] ++ repeat is_hex_digit 3 ++ [is_dash]
  ++ [is_rfc4122_variant] ++ repeat is_hex_digit 3 ++ [is_dash]
  ++ repeat is_hex_digit 12.

(** The two field writes of [UUID(bytes=..., version=4)] on the integer read
    from the bytes. *)
Definition stamp (int : Z) : Z :=
  Z.lor (Z.land (Z.lor (Z.land int (Z.lnot (Z.shiftl 0xc000 48)))
                       (Z.shiftl 0x8000 48))
                (Z.lnot (Z.shiftl 0xf000 64)))
        (Z.shiftl 4 76).

(** The value of a hexadecimal digit (16 for any other character). *)
Definition hex_value (c : ascii) : Z :=
  let fix index (cs : list ascii) (i : Z) : Z :=
    match cs with
    | [] => i
    | c' :: cs => if Ascii.eqb c c' then i else index cs (i + 1)
    end in
  index (list_ascii_of_string "0123456789abcdef") 0.

(** The bits [stamp] overwrites: the variant (62, 63) and the version
    (76 to 79); the other 122 come from the random bytes. *)
Definition fixed_bit (k : Z) : bool :=
  (k =? 62) || (k =? 63) || ((76 <=? k) && (k <=? 79)).

(** The value of a byte, and the bits of the byte at index [i] of the
    sixteen that [uuid4] keeps: the low half of byte 6 (the high half holds
    the version), the low six bits of byte 8 (the top two hold the variant),
    all of any other byte. *)
Definition byte_value (b : Byte.byte) : Z := Z.of_N (Byte.to_N b).
Definition kept_bits (i : nat) : Z :=
  if (i =? 6)%nat then 0x0f else if (i =? 8)%nat then 0x3f else 0xff.

(** * Properties *)

(** ** The keyword bag *)

(** Membership of a key in a literal list of keys, and its negation. *)
Ltac key_in :=
  unfold redis_keys, memcached_keys, memory_keys, database_keys;
  rewrite !elem_of_cons; tauto.
Ltac key_notin :=
  unfold redis_keys, memcached_keys, memory_keys, database_keys;
  rewrite !not_elem_of_cons;
  repeat split; try discriminate; apply not_elem_of_nil.

Section kwargs_lemmas.
Implicit Types (kwargs : Kwargs) (k : string) (v : Value) (keys : list string).

Lemma lookup_only_keys keys kwargs k :
  only_keys keys kwargs !! k = if decide (k ∈ keys) then kwargs !! k else None.
Proof.
  unfold only_keys. apply option_eq; intros v.
  rewrite map_lookup_filter_Some. simpl.
  case_decide; intuition congruence.
Qed.

Lemma only_keys_delete keys kwargs k :
  k ∉ keys → only_keys keys (delete k kwargs) = only_keys keys kwargs.
Proof.
  intros Hk. apply map_eq; intros i. rewrite !lookup_only_keys.
  case_decide; [|done]. apply lookup_delete_ne. congruence.
Qed.


Lemma py_in_true k kwargs : py_in k kwargs = true ↔ is_Some (kwargs !! k).
Proof. unfold py_in. apply bool_decide_eq_true. Qed.

Lemma any_in_true keys kwargs :
  any_in keys kwargs = true ↔ ∃ k, k ∈ keys ∧ is_Some (kwargs !! k).
Proof.
  unfold any_in. rewrite existsb_exists. setoid_rewrite py_in_true.
  setoid_rewrite list_elem_of_In. done.
Qed.

Lemma any_in_ext keys kwargs kwargs' :
  (∀ k, k ∈ keys → kwargs' !! k = kwargs !! k) →
  any_in keys kwargs' = any_in keys kwargs.
Proof.
  intros H. apply eq_true_iff_eq. rewrite !any_in_true.
  split; intros (k & Hk & Hs); exists k; (split; [done|]);
    [rewrite <- H | rewrite H]; done.
Qed.

(** Putting [db_config] back next to the common options gives the
    database allow-list applied to the original bag. *)
Lemma database_kwargs_hybrid kwargs v :
  kwargs !! "db_config" = Some v →
  <["db_config" := v]> (only_keys ["prefix"; "expiration"] (delete "db_config" kwargs))
  = only_keys database_keys kwargs.
Proof.
  intros Hv. apply map_eq; intros i.
  destruct (decide (i = "db_config")) as [->|Hi].
  - rewrite lookup_insert_eq, lookup_only_keys, Hv.
    rewrite decide_True; [done|]. key_in.
  - rewrite lookup_insert_ne by done. rewrite !lookup_only_keys.
    rewrite lookup_delete_ne by done.
    unfold database_keys. repeat case_decide; try reflexivity;
      rewrite !elem_of_cons in *; tauto.
Qed.

End kwargs_lemmas.

(** ** Constructor calls *)

Section calls.
Implicit Types (init : Drivers) (s : Store).

Lemma constructed_construct init s : constructed (construct init s) = [s].
Proof. unfold construct. by destruct (init s). Qed.

Lemma outcome_construct init s :
  outcome (construct init s) = from_option inl (inr s) (init s).
Proof. unfold construct. by destruct (init s). Qed.

Lemma in_order_cases init a b c :
  (∃ e s, in_order init a b c = MkRun (made init [a; b; c]) (inl e)
          ∧ last (made init [a; b; c]) = Some s ∧ init s = Some e)
  ∨ (in_order init a b c = MkRun [a; b; c] (inr c)
     ∧ made init [a; b; c] = [a; b; c]
     ∧ init a = None ∧ init b = None ∧ init c = None).
Proof.
  unfold in_order, mbind, Run_bind, bind, construct. cbn [made].
  destruct (init a) as [ea|] eqn:Ha; cbn [outcome constructed app].
  { left. exists ea, a. auto. }
  destruct (init b) as [eb|] eqn:Hb; cbn [outcome constructed app].
  { left. exists eb, b. auto. }
  destruct (init c) as [ec|] eqn:Hc; cbn [outcome constructed app].
  { left. exists ec, c. auto. }
  right. auto.
Qed.

Lemma constructed_in_order init a b c :
  constructed (in_order init a b c) = made init [a; b; c].
Proof.
  destruct (in_order_cases init a b c) as [(e & s & -> & _)|(-> & -> & _)];
    reflexivity.
Qed.

End calls.

(** ** The hybrid branch *)

Section hybrid_branch.
Implicit Types (init : Drivers) (kwargs : Kwargs) (model_type : ModelType).

Lemma hybrid_falsy init model_type kwargs :
  truthy (from_option id VNone (kwargs !! "db_config")) = false →
  get_session_storage init "hybrid" model_type kwargs
  = MkRun [] (inl db_config_error).
Proof.
  intros H. unfold get_session_storage, pop. simpl String.eqb. cbv iota.
  rewrite H. reflexivity.
Qed.

(** The value of [use_redis] computed on the bag after [db_config] was
    popped. *)
Lemma use_redis_selects kwargs :
  let kwargs' := delete "db_config" kwargs in
  (if any_in ["db"; "username"; "password"] kwargs' then true
   else py_eq_str (from_option id (VStr "redis") (kwargs' !! "_cache_backend")) "redis")
  = bool_decide (selects_redis kwargs).
Proof.
  intros kwargs'. symmetry.
  assert (Hany : any_in ["db"; "username"; "password"] kwargs'
                 = any_in ["db"; "username"; "password"] kwargs).
  { apply any_in_ext. intros k Hk. apply lookup_delete_ne.
    intros <-. rewrite !elem_of_cons, elem_of_nil in Hk.
    destruct Hk as [?|[?|[?|[]]]]; discriminate. }
  assert (Hcb : kwargs' !! "_cache_backend" = kwargs !! "_cache_backend").
  { apply lookup_delete_ne. done. }
  rewrite Hany, Hcb.
  destruct (any_in _ kwargs) eqn:Ha.
  - apply bool_decide_eq_true. left.
    apply any_in_true in Ha as (k & Hk & Hs).
    rewrite !elem_of_cons, elem_of_nil in Hk.
    destruct Hk as [->|[->|[->|[]]]]; auto.
  - assert (Hno : ¬ (is_Some (kwargs !! "db") ∨ is_Some (kwargs !! "username")
                     ∨ is_Some (kwargs !! "password"))).
    { intros Hs. apply not_true_iff_false in Ha. apply Ha, any_in_true.
      destruct Hs as [Hs|[Hs|Hs]]; eexists; (split; [|exact Hs]); key_in. }
    destruct (kwargs !! "_cache_backend") as [v|] eqn:Hv; cbn [from_option id].
    + destruct (py_eq_str v "redis") eqn:He.
      * apply bool_decide_eq_true. right; right. rewrite Hv. by exists v.
      * apply bool_decide_eq_false. intros [Hs|[Hn|(v' & Hv' & He')]].
        -- by apply Hno.
        -- congruence.
        -- rewrite Hv in Hv'. injection Hv' as <-. congruence.
    + apply bool_decide_eq_true. right; left. done.
Qed.

Ltac by_init_cases :=
  unfold mbind, Run_bind, bind, construct;
  repeat (match goal with
          | |- context [match ?init ?s with Some _ => _ | None => _ end] =>
              destruct (init s)
          end; cbn [outcome constructed app]);
  reflexivity.

(** What the hybrid branch does once [db_config] is there and truthy. *)
Lemma hybrid_run init model_type kwargs db_config :
  kwargs !! "db_config" = Some db_config →
  truthy db_config = true →
  let cache_storage := cache_tier kwargs in
  let database_storage := DatabaseSessionStorage (only_keys database_keys kwargs) in
  let store := HybridSessionStorage cache_storage database_storage
                 (only_keys ["prefix"; "expiration"] kwargs) in
  get_session_storage init "hybrid" model_type kwargs
  = in_order init cache_storage database_storage store.
Proof.
  intros Hdb Ht. unfold get_session_storage, pop. simpl String.eqb. cbv iota.
  rewrite Hdb. simpl from_option. rewrite Ht. simpl negb. cbv iota.
  pose proof (use_redis_selects kwargs) as Hu. cbv zeta in Hu.
  unfold cache_tier, in_order.
  destruct (any_in _ (delete "db_config" kwargs)) eqn:Ha.
  - symmetry in Hu. apply bool_decide_eq_true in Hu.
    rewrite decide_True by done.
    rewrite database_kwargs_hybrid by done.
    rewrite !only_keys_delete by key_notin.
    by_init_cases.
  - rewrite Hu.
    rewrite !(only_keys_delete _ _ "_cache_backend") by key_notin.
    rewrite database_kwargs_hybrid by done.
    rewrite !only_keys_delete by key_notin.
    destruct (decide (selects_redis kwargs)) as [Hs|Hs].
    + rewrite bool_decide_eq_true_2 by done.
      by_init_cases.
    + rewrite bool_decide_eq_false_2 by done.
      by_init_cases.
Qed.

(** The hybrid branch, by the truth value of [db_config]. *)
Lemma hybrid_cases init model_type kwargs :
  (truthy (from_option id VNone (kwargs !! "db_config")) = false
   ∧ get_session_storage init "hybrid" model_type kwargs
     = MkRun [] (inl db_config_error))
  ∨ (∃ db_config,
       kwargs !! "db_config" = Some db_config ∧ truthy db_config = true
       ∧ get_session_storage init "hybrid" model_type kwargs
         = (let cache_storage := cache_tier kwargs in
            let database_storage :=
              DatabaseSessionStorage (only_keys database_keys kwargs) in
            in_order init cache_storage database_storage
              (HybridSessionStorage cache_storage database_storage
                 (only_keys ["prefix"; "expiration"] kwargs)))).
Proof.
  destruct (truthy (from_option id VNone (kwargs !! "db_config"))) eqn:Ht.
  - right. destruct (kwargs !! "db_config") as [v|] eqn:Hv; [|discriminate].
    exists v. split; [reflexivity|]. split; [exact Ht|].
    exact (hybrid_run init model_type kwargs v Hv Ht).
  - left. split; [reflexivity|]. exact (hybrid_falsy init model_type kwargs Ht).
Qed.

Lemma cache_tier_cases kwargs :
  (selects_redis kwargs
   ∧ cache_tier kwargs = RedisSessionStorage (only_keys redis_keys kwargs))
  ∨ (¬ selects_redis kwargs
     ∧ cache_tier kwargs = MemcachedSessionStorage (only_keys memcached_keys kwargs)).
Proof. unfold cache_tier. case_decide; auto. Qed.

End hybrid_branch.

(** ** The factory *)

Lemma elem_of_backends backend :
  backend ∈ backends ↔
  backend = "redis" ∨ backend = "memcached" ∨ backend = "memory"
  ∨ backend = "database" ∨ backend = "hybrid".
Proof.
  unfold backends. rewrite !elem_of_cons, elem_of_nil. tauto.
Qed.

Lemma run_known init backend model_type (kwargs : Kwargs) :
  backend ≠ "hybrid" →
  get_session_storage init backend model_type kwargs =
  if String.eqb backend "redis"
  then construct init (RedisSessionStorage (only_keys redis_keys kwargs))
  else if String.eqb backend "memcached"
  then construct init (MemcachedSessionStorage (only_keys memcached_keys kwargs))
  else if String.eqb backend "memory"
  then construct init (MemorySessionStorage (only_keys memory_keys kwargs))
  else if String.eqb backend "database"
  then construct init (DatabaseSessionStorage (only_keys database_keys kwargs))
  else raise (unknown_backend_error backend).
Proof.
  intros Hh. unfold get_session_storage.
  destruct (String.eqb_spec backend "hybrid") as [->|?]; [done|].
  reflexivity.
Qed.

(** A single constructor call returns exactly when the constructor does not
    raise. *)
Lemma construct_returns init s :
  (∃ store, outcome (construct init s) = inr store
            ∧ last (constructed (construct init s)) = Some store)
  ↔ ∀ s', s' ∈ constructed (construct init s) → init s' = None.
Proof.
  rewrite constructed_construct, outcome_construct.
  setoid_rewrite list_elem_of_singleton. split.
  - intros (store & Ho & _) s' ->. destruct (init s); [discriminate|done].
  - intros H. rewrite (H s eq_refl). by exists s.
Qed.

(** C1: with backend "hybrid" and no [db_config] entry among the keyword
    arguments, the factory raises the ValueError "db_config is required for
    hybrid backend"; no constructor has been called and nothing is returned. *)
Theorem hybrid_without_db_config_raises init model_type (kwargs : Kwargs) :
  kwargs !! "db_config" = None →
  get_session_storage init "hybrid" model_type kwargs
  = MkRun [] (inl db_config_error).
Proof.
  intros H. apply hybrid_falsy. rewrite H. reflexivity.
Qed.

Lemma hybrid_without_db_config_raises_witness :
  bag_no_db_config !! "db_config" = None
  ∧ get_session_storage strict_database "hybrid" BaseModel bag_no_db_config
    = MkRun [] (inl db_config_error).
Proof.
  split; [reflexivity|].
  apply (hybrid_without_db_config_raises strict_database BaseModel bag_no_db_config).
  reflexivity.
Defined.

(** C2, as stated, fails: "hybrid" is one of the five names, and without
    [db_config] no store is returned, whatever the drivers do. *)
Lemma returns_store_iff_known_backend_fails :
  ¬ (∀ init backend model_type (kwargs : Kwargs),
       (∃ store,
          outcome (get_session_storage init backend model_type kwargs) = inr store)
       ↔ backend ∈ backends).
Proof.
  intros H. destruct (proj2 (H lenient "hybrid" BaseModel ∅)) as [store Hs].
  - unfold backends. rewrite !elem_of_cons. tauto.
  - discriminate Hs.
Qed.

(** C2, amended: the factory raises "Unknown backend: <name>", with no
    constructor called, exactly when the name is none of the five; it
    returns a store (the last one constructed) exactly when the name is
    "redis", "memcached", "memory" or "database", or it is "hybrid" and
    [db_config] is present and truthy, and none of the constructors it calls
    raises. *)
Theorem unknown_backend_iff_not_listed
    init backend model_type (kwargs : Kwargs) :
  let r := get_session_storage init backend model_type kwargs in
  (backend ∉ backends ↔ r = MkRun [] (inl (unknown_backend_error backend)))
  ∧ ((∃ store, outcome r = inr store ∧ last (constructed r) = Some store)
     ↔ ((backend ∈ ["redis"; "memcached"; "memory"; "database"]
         ∨ (backend = "hybrid"
            ∧ truthy (from_option id VNone (kwargs !! "db_config")) = true))
        ∧ ∀ s, s ∈ constructed r → init s = None)).
Proof.
  intros r. subst r. rewrite elem_of_backends, !elem_of_cons, elem_of_nil.
  destruct (decide (backend = "hybrid")) as [->|Hh].
  - destruct (hybrid_cases init model_type kwargs)
      as [[Ht ->]|(d & Hd & Ht & ->)].
    + rewrite Ht. split; (split; [|]).
      * tauto.
      * discriminate.
      * intros (? & ? & _); discriminate.
      * intros [[[?|[?|[?|[?|[]]]]]|[_ ?]] _]; discriminate.
    + rewrite Hd. cbn [from_option id]. rewrite Ht. cbv zeta.
      destruct (in_order_cases init (cache_tier kwargs)
                  (DatabaseSessionStorage (only_keys database_keys kwargs))
                  (HybridSessionStorage (cache_tier kwargs)
                     (DatabaseSessionStorage (only_keys database_keys kwargs))
                     (only_keys ["prefix"; "expiration"] kwargs)))
        as [(e & s & -> & Hl & He)|(-> & Hm & Ha & Hb & Hc)].
      * split; split.
        -- tauto.
        -- intros H. apply (f_equal constructed) in H.
           cbn [constructed made] in H. discriminate H.
        -- intros (? & ? & _); discriminate.
        -- intros [_ Hall]. cbn [constructed] in Hall.
           apply last_Some in Hl as [l' Hl]. rewrite Hl in Hall.
           rewrite (Hall s) in He; [discriminate|].
           rewrite elem_of_app, list_elem_of_singleton. tauto.
      * split; split.
        -- tauto.
        -- discriminate.
        -- intros _. split; [tauto|]. cbn [constructed].
           intros s. rewrite !elem_of_cons, elem_of_nil.
           intros [->|[->|[->|[]]]]; assumption.
        -- intros _. eexists. split; reflexivity.
  - rewrite run_known by done.
    destruct (String.eqb_spec backend "redis") as [->|?];
    [|destruct (String.eqb_spec backend "memcached") as [->|?];
    [|destruct (String.eqb_spec backend "memory") as [->|?];
    [|destruct (String.eqb_spec backend "database") as [->|?]]]].
    1-4: split;
      [split; [intros Hn; exfalso; apply Hn; tauto
              |intros H; apply (f_equal constructed) in H;
               rewrite constructed_construct in H; discriminate H]
      |rewrite construct_returns; split; [intros H; split; [tauto|exact H]|tauto]].
    split; split.
    + reflexivity.
    + intros _ [?|[?|[?|[?|?]]]]; congruence.
    + intros (? & ? & _). discriminate.
    + intros [[[?|[?|[?|[?|[]]]]]|[? _]] _]; congruence.
Qed.

(** C3: whenever the hybrid construction succeeds, the store returned is a
    [HybridSessionStorage] made of two drivers, a Redis or Memcached cache
    driver and a [DatabaseSessionStorage] that received [db_config]; these
    two and the coordinator are all that was constructed. *)
Theorem hybrid_store_composition init model_type (kwargs : Kwargs) store :
  outcome (get_session_storage init "hybrid" model_type kwargs) = inr store →
  hybrid_composition kwargs
    (constructed (get_session_storage init "hybrid" model_type kwargs)) store.
Proof.
  destruct (hybrid_cases init model_type kwargs)
    as [[_ ->]|(v & Hv & Ht & ->)]; [discriminate|].
  cbv zeta.
  destruct (in_order_cases init (cache_tier kwargs)
              (DatabaseSessionStorage (only_keys database_keys kwargs))
              (HybridSessionStorage (cache_tier kwargs)
                 (DatabaseSessionStorage (only_keys database_keys kwargs))
                 (only_keys ["prefix"; "expiration"] kwargs)))
    as [(e & s & -> & _)|(-> & _)]; [discriminate|].
  cbn [outcome constructed]. intros [= <-].
  exists (cache_tier kwargs), (only_keys database_keys kwargs),
    (only_keys ["prefix"; "expiration"] kwargs), v.
  split; [reflexivity|]. split; [reflexivity|]. split.
  { destruct (cache_tier_cases kwargs) as [[_ ->]|[_ ->]]; auto. }
  split; [done|]. split; [done|].
  rewrite lookup_only_keys, Hv. apply decide_True. key_in.
Qed.

Lemma hybrid_store_composition_witness :
  ∃ store,
    outcome (get_session_storage lenient "hybrid" BaseModel bag_memcached)
    = inr store
    ∧ hybrid_composition bag_memcached
        (constructed (get_session_storage lenient "hybrid" BaseModel bag_memcached))
        store.
Proof.
  eexists. split; [vm_compute; reflexivity|].
  refine (hybrid_store_composition lenient BaseModel bag_memcached _ _).
  vm_compute; reflexivity.
Defined.

(** C4: in the hybrid branch the cache tier follows the keys of the bag: a
    key among "db", "username", "password" present, or "_cache_backend"
    absent or equal to "redis", gives the Redis driver; any other bag gives
    the Memcached driver.  The cache driver is the first constructor called
    and the [redis_storage] of the coordinator. *)
Theorem hybrid_cache_tier_selection init model_type (kwargs : Kwargs) db_config :
  kwargs !! "db_config" = Some db_config →
  truthy db_config = true →
  ∃ cache_storage database_storage hybrid_kwargs,
    get_session_storage init "hybrid" model_type kwargs
    = in_order init cache_storage database_storage
        (HybridSessionStorage cache_storage database_storage hybrid_kwargs)
    ∧ (selects_redis kwargs →
       cache_storage = RedisSessionStorage (only_keys redis_keys kwargs))
    ∧ (¬ selects_redis kwargs →
       cache_storage = MemcachedSessionStorage (only_keys memcached_keys kwargs)).
Proof.
  intros Hv Ht. eexists (cache_tier kwargs), _, _.
  split; [apply (hybrid_run init model_type kwargs db_config Hv Ht)|].
  destruct (cache_tier_cases kwargs) as [[Hs ->]|[Hs ->]]; split; tauto.
Qed.

Lemma hybrid_cache_tier_selection_witness :
  head (constructed (get_session_storage lenient "hybrid" BaseModel bag_memcached))
  = Some (MemcachedSessionStorage (only_keys memcached_keys bag_memcached))
  ∧ head (constructed (get_session_storage lenient "hybrid" BaseModel bag_mock_cache))
    = Some (RedisSessionStorage (only_keys redis_keys bag_mock_cache)).
Proof.
  split.
  - destruct (hybrid_cache_tier_selection lenient BaseModel bag_memcached a_db_config
                ltac:(reflexivity) ltac:(reflexivity))
      as (c & d & h & Hrun & _ & Hm).
    rewrite Hrun, constructed_in_order. cbn [made head]. f_equal.
    apply Hm. apply (bool_decide_eq_false_1 (selects_redis bag_memcached)).
    vm_compute. reflexivity.
  - destruct (hybrid_cache_tier_selection lenient BaseModel bag_mock_cache a_db_config
                ltac:(reflexivity) ltac:(reflexivity))
      as (c & d & h & Hrun & Hr & _).
    rewrite Hrun, constructed_in_order. cbn [made head]. f_equal.
    apply Hr. apply (bool_decide_eq_true_1 (selects_redis bag_mock_cache)).
    vm_compute. reflexivity.
Defined.

(** C9, as stated, fails in its second half: a "_cache_backend" value that
    is not the string "redis" but compares equal to it (a mock that equals
    anything) selects the Redis cache tier with no Redis-only key present. *)
Lemma value_other_than_redis_can_select_redis :
  bag_mock_cache !! "db_config" = Some a_db_config
  ∧ truthy a_db_config = true
  ∧ (∀ k, k ∈ ["db"; "username"; "password"] → bag_mock_cache !! k = None)
  ∧ bag_mock_cache !! "_cache_backend" = Some equal_to_anything
  ∧ equal_to_anything ≠ VStr "redis"
  ∧ head (constructed (get_session_storage lenient "hybrid" BaseModel bag_mock_cache))
    = Some (RedisSessionStorage (only_keys redis_keys bag_mock_cache))
  ∧ head (constructed (get_session_storage lenient "hybrid" BaseModel bag_mock_cache))
    ≠ Some (MemcachedSessionStorage (only_keys memcached_keys bag_mock_cache)).
Proof.
  assert (Hhead :
    head (constructed (get_session_storage lenient "hybrid" BaseModel bag_mock_cache))
    = Some (RedisSessionStorage (only_keys redis_keys bag_mock_cache)))
    by (vm_compute; reflexivity).
  split; [reflexivity|]. split; [reflexivity|]. split.
  { intros k Hk. rewrite !elem_of_cons, elem_of_nil in Hk.
    destruct Hk as [->|[->|[->|[]]]]; reflexivity. }
  split; [reflexivity|]. split; [discriminate|].
  split; [exact Hhead|]. rewrite Hhead. discriminate.
Qed.

(** C9, amended: in the hybrid branch a key among "db", "username",
    "password" in the bag gives the Redis cache tier whatever
    "_cache_backend" says; with none of the three present, every
    "_cache_backend" value that does not compare equal to "redis" gives the
    Memcached cache tier, and that is every string other than "redis",
    [None], every [bool] and every [int]. *)
Theorem redis_keys_override_cache_backend
    init model_type (kwargs : Kwargs) db_config :
  kwargs !! "db_config" = Some db_config →
  truthy db_config = true →
  let r := get_session_storage init "hybrid" model_type kwargs in
  (∀ k, k ∈ ["db"; "username"; "password"] → is_Some (kwargs !! k) →
     head (constructed r)
     = Some (RedisSessionStorage (only_keys redis_keys kwargs)))
  ∧ (∀ v, (∀ k, k ∈ ["db"; "username"; "password"] → kwargs !! k = None) →
     kwargs !! "_cache_backend" = Some v → py_eq_str v "redis" = false →
     head (constructed r)
     = Some (MemcachedSessionStorage (only_keys memcached_keys kwargs)))
  ∧ (∀ v, v = VNone ∨ (∃ b, v = VBool b) ∨ (∃ z, v = VInt z)
          ∨ (∃ s, v = VStr s ∧ s ≠ "redis") →
     py_eq_str v "redis" = false).
Proof.
  intros Hv Ht r. subst r.
  rewrite (hybrid_run init model_type kwargs db_config Hv Ht). cbv zeta.
  rewrite constructed_in_order. cbn [made head]. split; [|split].
  - intros k Hk Hs.
    destruct (cache_tier_cases kwargs) as [[_ ->]|[Hn _]]; [done|].
    exfalso. apply Hn. left.
    rewrite !elem_of_cons, elem_of_nil in Hk.
    destruct Hk as [->|[->|[->|[]]]]; tauto.
  - intros v Hno Hcb Hne.
    destruct (cache_tier_cases kwargs) as [[Hs _]|[_ ->]]; [|done].
    exfalso. destruct Hs as [[Hs|[Hs|Hs]]|[Hn|(v' & Hv' & He)]].
    + rewrite Hno in Hs; [by destruct Hs|]. rewrite !elem_of_cons. tauto.
    + rewrite Hno in Hs; [by destruct Hs|]. rewrite !elem_of_cons. tauto.
    + rewrite Hno in Hs; [by destruct Hs|]. rewrite !elem_of_cons. tauto.
    + congruence.
    + rewrite Hcb in Hv'. injection Hv' as <-. congruence.
  - intros v [->|[[b ->]|[[z ->]|(s & -> & Hs)]]]; try reflexivity.
    cbn [py_eq_str]. by apply String.eqb_neq.
Qed.

Lemma redis_keys_override_cache_backend_witness :
  (bag_redis_forced !! "_cache_backend" = Some (VStr "memcached")
   ∧ head (constructed (get_session_storage lenient "hybrid" BaseModel bag_redis_forced))
     = Some (RedisSessionStorage (only_keys redis_keys bag_redis_forced)))
  ∧ head (constructed (get_session_storage lenient "hybrid" BaseModel bag_other_cache))
    = Some (MemcachedSessionStorage (only_keys memcached_keys bag_other_cache)).
Proof.
  split; [split; [reflexivity|]|].
  - refine (proj1 (redis_keys_override_cache_backend lenient BaseModel
                     bag_redis_forced a_db_config _ _) "password" _ _).
    + reflexivity.
    + reflexivity.
    + rewrite !elem_of_cons. tauto.
    + eexists. reflexivity.
  - refine (proj1 (proj2 (redis_keys_override_cache_backend lenient BaseModel
                     bag_other_cache a_db_config _ _)) VNone _ _ _).
    + reflexivity.
    + reflexivity.
    + intros k Hk. rewrite !elem_of_cons, elem_of_nil in Hk.
      destruct Hk as [->|[->|[->|[]]]]; reflexivity.
    + reflexivity.
    + reflexivity.
Defined.






(** C10: [SessionStorage] called with keyword arguments only, no backend
    given and no "model_type" among them, is [get_session_storage] called
    with "memory", [BaseModel] and the same keyword arguments: the in-memory
    driver is the one constructed, and the store returned, if its
    constructor returns; with a backend given it is [get_session_storage]
    for that name. *)
Theorem SessionStorage_defaults_to_memory init (kwargs : Kwargs) :
  kwargs !! "model_type" = None →
  let store := MemorySessionStorage (only_keys memory_keys kwargs) in
  SessionStorage.__new__ init None kwargs
  = get_session_storage init "memory" BaseModel kwargs
  ∧ constructed (SessionStorage.__new__ init None kwargs) = [store]
  ∧ outcome (SessionStorage.__new__ init None kwargs)
    = from_option inl (inr store) (init store)
  ∧ (∀ backend, SessionStorage.__new__ init (Some backend) kwargs
                = get_session_storage init backend BaseModel kwargs).
Proof.
  intros Hm store.
  assert (Hnew : ∀ backend, SessionStorage.__new__ init backend kwargs
            = get_session_storage init (default "memory" backend) BaseModel kwargs).
  { intros backend. unfold SessionStorage.__new__, py_in.
    rewrite bool_decide_eq_false_2; [reflexivity|].
    rewrite Hm. by intros [? ?]. }
  split; [apply Hnew|]. rewrite (Hnew None).
  split; [apply constructed_construct|].
  split; [apply outcome_construct|].
  intros backend. apply Hnew.
Qed.

Lemma SessionStorage_defaults_to_memory_witness :
  outcome (SessionStorage.__new__ lenient None bag_memcached)
  = inr (MemorySessionStorage (only_keys memory_keys bag_memcached)).
Proof.
  exact (proj1 (proj2 (proj2
    (SessionStorage_defaults_to_memory lenient bag_memcached eq_refl)))).
Defined.

(** ** UUID text *)

Section uuid_text.
Import Uuid.

Lemma nibble_range n i : 0 ≤ i → 0 ≤ nibble n i < 16.
Proof.
  intros Hi. unfold nibble. change 15 with (Z.ones 4).
  rewrite Z.land_ones by lia. apply Z.mod_pos_bound. lia.
Qed.

Lemma hex_digit_is_hex d : 0 ≤ d < 16 → is_hex_digit (hex_digit d) = true.
Proof.
  intros Hd.
  assert (H : d = 0 ∨ d = 1 ∨ d = 2 ∨ d = 3 ∨ d = 4 ∨ d = 5 ∨ d = 6 ∨ d = 7
              ∨ d = 8 ∨ d = 9 ∨ d = 10 ∨ d = 11 ∨ d = 12 ∨ d = 13 ∨ d = 14
              ∨ d = 15) by lia.
  repeat (destruct H as [->|H]; [reflexivity|]). subst d. reflexivity.
Qed.

Lemma hex_digit_variant d :
  8 ≤ d < 12 → is_rfc4122_variant (hex_digit d) = true.
Proof.
  intros Hd. assert (H : d = 8 ∨ d = 9 ∨ d = 10 ∨ d = 11) by lia.
  repeat (destruct H as [->|H]; [reflexivity|]). subst d. reflexivity.
Qed.

(** One write of a bit field: clear under the mask, then set. *)
Lemma testbit_field x mask val k :
  0 ≤ k →
  Z.testbit (Z.lor (Z.land x (Z.lnot mask)) val) k
  = (Z.testbit x k && negb (Z.testbit mask k)) || Z.testbit val k.
Proof.
  intros Hk. rewrite Z.lor_spec, Z.land_spec, Z.lnot_spec by lia. reflexivity.
Qed.

Lemma uuid4_stamp urandom :
  length urandom = 16%nat → uuid4 urandom = Some (stamp (int_from_bytes urandom)).
Proof. intros H. unfold uuid4, UUID. rewrite H. reflexivity. Qed.

Lemma testbit_stamp x k :
  0 ≤ k →
  Z.testbit (stamp x) k
  = (((Z.testbit x k && negb (Z.testbit (Z.shiftl 0xc000 48) k))
      || Z.testbit (Z.shiftl 0x8000 48) k)
     && negb (Z.testbit (Z.shiftl 0xf000 64) k))
    || Z.testbit (Z.shiftl 4 76) k.
Proof.
  intros Hk. unfold stamp. rewrite !testbit_field by lia. reflexivity.
Qed.

Ltac stamp_bit k :=
  rewrite (testbit_stamp _ k) by lia;
  match goal with |- context [Z.testbit ?x k] =>
    is_var x; destruct (Z.testbit x k) end; reflexivity.

Lemma version_nibble x : nibble (stamp x) 19 = 4.
Proof.
  unfold nibble. apply Z.bits_inj'. intros k Hk.
  rewrite Z.land_spec, Z.shiftr_spec by lia.
  assert (H : k = 0 ∨ k = 1 ∨ k = 2 ∨ k = 3 ∨ 4 ≤ k) by lia.
  destruct H as [->|[->|[->|[->|H]]]].
  1-4: simpl (_ + _).
  - stamp_bit 76.
  - stamp_bit 77.
  - stamp_bit 78.
  - stamp_bit 79.
  - change 15 with (Z.ones 4). rewrite Z.ones_spec_high by lia.
    change 4 with (2 ^ 2) at 2. rewrite Z.pow2_bits_false by lia.
    apply andb_false_r.
Qed.

Lemma variant_nibble x : 8 ≤ nibble (stamp x) 15 < 12.
Proof.
  assert (H : Z.shiftr (nibble (stamp x) 15) 2 = 2).
  { unfold nibble. apply Z.bits_inj'. intros k Hk.
    rewrite Z.shiftr_spec, Z.land_spec, Z.shiftr_spec by lia.
    assert (H : k = 0 ∨ k = 1 ∨ 2 ≤ k) by lia.
    destruct H as [->|[->|H]].
    1-2: simpl (_ + _).
    - stamp_bit 62.
    - stamp_bit 63.
    - change 15 with (Z.ones 4). rewrite Z.ones_spec_high by lia.
      change 2 with (2 ^ 1) at 2. rewrite Z.pow2_bits_false by lia.
      apply andb_false_r. }
  rewrite Z.shiftr_div_pow2 in H by lia. change (2 ^ 2) with 4 in H.
  pose proof (Z.div_mod (nibble (stamp x) 15) 4 ltac:(lia)).
  pose proof (Z.mod_pos_bound (nibble (stamp x) 15) 4 ltac:(lia)). lia.
Qed.

Lemma layout_matches (cs : list ascii) :
  length cs = 32%nat →
  forallb is_hex_digit cs = true →
  is_version4 (nth 12 cs "0"%char) = true →
  is_rfc4122_variant (nth 16 cs "0"%char) = true →
  let hex := string_of_list_ascii cs in
  let text := substring 0 8 hex ++ "-" ++ substring 8 4 hex ++ "-"
              ++ substring 12 4 hex ++ "-" ++ substring 16 4 hex ++ "-"
              ++ substring 20 (String.length hex - 20) hex in
  matches uuid4_pattern text = true ∧ String.length text = 36%nat.
Proof.
  intros Hlen Hhex Hver Hvar.
  do 32 (destruct cs as [|? cs]; [discriminate Hlen|]).
  destruct cs; [|discriminate Hlen]. clear Hlen.
  cbn [nth] in Hver, Hvar. cbn [forallb] in Hhex.
  repeat (apply andb_prop in Hhex; destruct Hhex as [? Hhex]).
  split; [|reflexivity].
  cbv -[is_hex_digit is_version4 is_rfc4122_variant].
  rewrite Hver, Hvar.
  repeat match goal with
    | H : is_hex_digit _ = true |- _ => rewrite H; clear H
    end.
  reflexivity.
Qed.

End uuid_text.

Section uuid_entropy.
Import Uuid.

Lemma int_from_bytes_snoc bs b :
  int_from_bytes (bs ++ [b]) = int_from_bytes bs * 256 + Z.of_N (Byte.to_N b).
Proof. unfold int_from_bytes. rewrite fold_left_app. reflexivity. Qed.

Lemma int_from_bytes_range bs :
  0 ≤ int_from_bytes bs < 256 ^ Z.of_nat (length bs).
Proof.
  induction bs as [|b bs IH] using rev_ind; [change (0 ≤ 0 < 1); lia|].
  rewrite int_from_bytes_snoc, length_app, Nat2Z.inj_add, Z.pow_add_r by lia.
  pose proof (Byte.to_N_bounded b) as Hb. change (256 ^ Z.of_nat (length [b])) with 256.
  lia.
Qed.

Lemma testbit_high n p k : 0 ≤ n < 2 ^ p → 0 ≤ p ≤ k → Z.testbit n k = false.
Proof.
  intros Hn Hk. rewrite <- (Z.mod_small n (2 ^ p)) by lia.
  apply Z.mod_pow2_bits_high. lia.
Qed.

Lemma below_pow2 n p :
  0 ≤ n → 0 ≤ p → (∀ k, p ≤ k → Z.testbit n k = false) → n < 2 ^ p.
Proof.
  intros Hn Hp Hbits.
  assert (H : n mod 2 ^ p = n).
  { apply Z.bits_inj'. intros k Hk. destruct (Z_lt_le_dec k p).
    - apply Z.mod_pow2_bits_low. lia.
    - rewrite Z.mod_pow2_bits_high by lia. symmetry. apply Hbits. lia. }
  rewrite <- H. apply Z.mod_pos_bound. lia.
Qed.

Lemma stamp_range x : 0 ≤ x < 2 ^ 128 → 0 ≤ stamp x < 2 ^ 128.
Proof.
  intros Hx. split.
  - unfold stamp. apply Z.lor_nonneg. split; [|done].
    apply Z.land_nonneg. left. apply Z.lor_nonneg. split; [|done].
    apply Z.land_nonneg. left. lia.
  - apply below_pow2; [| lia |].
    + unfold stamp. apply Z.lor_nonneg. split; [|done].
      apply Z.land_nonneg. left. apply Z.lor_nonneg. split; [|done].
      apply Z.land_nonneg. left. lia.
    + intros k Hk. rewrite testbit_stamp by lia.
      rewrite (testbit_high x 128 k) by lia.
      rewrite (testbit_high (Z.shiftl 0x8000 48) 128 k)
        by first [lia | split; by vm_compute].
      rewrite (testbit_high (Z.shiftl 4 76) 128 k)
        by first [lia | split; by vm_compute].
      reflexivity.
Qed.

(** The integer of a [uuid4] object is a 128-bit value, which is where
    [hex_032x] stands for the format ['%032x']. *)
Lemma uuid4_range urandom n :
  length urandom = 16%nat → uuid4 urandom = Some n → 0 ≤ n < 2 ^ 128.
Proof.
  intros Hlen Hn. rewrite (uuid4_stamp urandom Hlen) in Hn.
  injection Hn as <-. apply stamp_range.
  pose proof (int_from_bytes_range urandom) as Hr. rewrite Hlen in Hr. exact Hr.
Qed.

Lemma hex_value_digit d : 0 ≤ d < 16 → hex_value (hex_digit d) = d.
Proof.
  intros Hd.
  assert (H : d = 0 ∨ d = 1 ∨ d = 2 ∨ d = 3 ∨ d = 4 ∨ d = 5 ∨ d = 6 ∨ d = 7
              ∨ d = 8 ∨ d = 9 ∨ d = 10 ∨ d = 11 ∨ d = 12 ∨ d = 13 ∨ d = 14
              ∨ d = 15) by lia.
  repeat (destruct H as [->|H]; [reflexivity|]). subst d. reflexivity.
Qed.

Lemma nibble_testbit n i j :
  0 ≤ i → 0 ≤ j < 4 → Z.testbit (nibble n i) j = Z.testbit n (4 * i + j).
Proof.
  intros Hi Hj. unfold nibble. rewrite Z.land_spec, Z.shiftr_spec by lia.
  change 15 with (Z.ones 4). rewrite Z.ones_spec_low by lia.
  rewrite andb_true_r. f_equal. lia.
Qed.

Lemma eq_of_nibbles n m :
  0 ≤ n < 2 ^ 128 → 0 ≤ m < 2 ^ 128 →
  (∀ i, 0 ≤ i < 32 → nibble n i = nibble m i) → n = m.
Proof.
  intros Hn Hm H. apply Z.bits_inj'. intros k Hk.
  destruct (Z_lt_le_dec k 128) as [Hlt|Hge].
  - pose proof (Z.div_mod k 4 ltac:(lia)) as Hdm.
    pose proof (Z.mod_pos_bound k 4 ltac:(lia)) as Hmod.
    assert (Hq : 0 ≤ k / 4 < 32) by (split; [apply Z.div_pos|apply Z.div_lt_upper_bound]; lia).
    rewrite Hdm. rewrite <- !nibble_testbit by lia. rewrite H by lia. reflexivity.
  - rewrite (testbit_high n 128 k), (testbit_high m 128 k) by lia. reflexivity.
Qed.

Lemma UUID_str_inj n m :
  0 ≤ n < 2 ^ 128 → 0 ≤ m < 2 ^ 128 → UUID_str n = UUID_str m → n = m.
Proof.
  intros Hn Hm H. apply eq_of_nibbles; [done|done|].
  assert (Hd : ∀ i, 0 ≤ i < 32 → hex_digit (nibble n i) = hex_digit (nibble m i)).
  { cbv -[hex_digit nibble] in H. injection H. intros.
    assert (Hi : i = 0 ∨ i = 1 ∨ i = 2 ∨ i = 3 ∨ i = 4 ∨ i = 5 ∨ i = 6 ∨ i = 7
      ∨ i = 8 ∨ i = 9 ∨ i = 10 ∨ i = 11 ∨ i = 12 ∨ i = 13 ∨ i = 14 ∨ i = 15
      ∨ i = 16 ∨ i = 17 ∨ i = 18 ∨ i = 19 ∨ i = 20 ∨ i = 21 ∨ i = 22 ∨ i = 23
      ∨ i = 24 ∨ i = 25 ∨ i = 26 ∨ i = 27 ∨ i = 28 ∨ i = 29 ∨ i = 30 ∨ i = 31)
      by lia.
    repeat (destruct Hi as [->|Hi]; [assumption|]). subst i. assumption. }
  intros i Hi.
  rewrite <- (hex_value_digit (nibble n i)), <- (hex_value_digit (nibble m i))
    by (apply nibble_range; lia).
  rewrite Hd by done. reflexivity.
Qed.

Lemma testbit_stamp_random x k :
  0 ≤ k → fixed_bit k = false → Z.testbit (stamp x) k = Z.testbit x k.
Proof.
  intros Hk Hf. unfold fixed_bit in Hf.
  rewrite testbit_stamp by lia.
  change (Z.shiftl 0xc000 48) with (Z.shiftl (Z.ones 2) 62).
  change (Z.shiftl 0x8000 48) with (Z.shiftl 1 63).
  change (Z.shiftl 0xf000 64) with (Z.shiftl (Z.ones 4) 76).
  change (Z.shiftl 4 76) with (Z.shiftl (2 ^ 2) 76).
  rewrite !Z.shiftl_spec by lia. rewrite !Z.testbit_ones by lia.
  replace (Z.testbit 1 (k - 63)) with false
    by (change 1 with (2 ^ 0); rewrite Z.pow2_bits_eqb by lia; lia).
  replace (Z.testbit (2 ^ 2) (k - 76)) with false
    by (rewrite Z.pow2_bits_eqb by lia; lia).
  assert (H1 : (0 <=? k - 62) && (k - 62 <? 2) = false) by lia.
  assert (H2 : (0 <=? k - 76) && (k - 76 <? 4) = false) by lia.
  rewrite H1, H2. cbn [negb].
  rewrite !andb_true_r, !orb_false_r. reflexivity.
Qed.

Lemma stamp_keeps_random_bits x y k :
  stamp x = stamp y → 0 ≤ k → fixed_bit k = false →
  Z.testbit x k = Z.testbit y k.
Proof.
  intros H Hk Hf.
  rewrite <- (testbit_stamp_random x k Hk Hf), <- (testbit_stamp_random y k Hk Hf).
  rewrite H. reflexivity.
Qed.

End uuid_entropy.

(** ** The base object *)

Import AbstractSessionStorage.

Lemma append_inj_r (p s s' : string) : p ++ s = p ++ s' → s = s'.
Proof.
  induction p as [|c p IH]; simpl; intros H; [exact H|].
  injection H as H. exact (IH H).
Qed.

(** C6: on a store constructed with prefix [p], [get_key] of a session id is
    the concatenation of [p] and the id (with the default prefix, of
    "session:" and the id); for a fixed prefix, ids with the same key are the
    same id. *)
Theorem get_key_is_prefix_then_id (p : string) (e : option Z) (session_id : string) :
  get_key (__init__ (Some p) e) session_id = p ++ session_id
  ∧ get_key (__init__ None e) session_id = "session:" ++ session_id
  ∧ (∀ self other, get_key self session_id = get_key self other →
                   session_id = other).
Proof.
  split; [reflexivity|]. split; [reflexivity|].
  intros self other H. exact (append_inj_r _ _ _ H).
Qed.

Lemma get_key_is_prefix_then_id_witness :
  get_key (__init__ (Some "adm:") None) "s1" = "adm:s1"
  ∧ get_key (__init__ None None) "s1" = "session:s1".
Proof.
  destruct (get_key_is_prefix_then_id "adm:" None "s1") as (H1 & H2 & Hinj).
  pose proof (Hinj (__init__ None None) "s1" eq_refl) as _.
  split; [exact H1 | exact H2].
Defined.

(** C7: a store constructed without options has prefix "session:" and
    expiration 1800; both are fields set by the constructor from its
    arguments, each defaulted on its own; and the expiration field is what an
    operation uses when it gives no override. *)
Theorem default_prefix_and_expiration :
  (__init__ None None).(prefix) = "session:"
  ∧ (__init__ None None).(expiration) = 1800
  ∧ (∀ p e op oe, (__init__ (Some p) oe).(prefix) = p
                  ∧ (__init__ op (Some e)).(expiration) = e
                  ∧ (__init__ None oe).(prefix) = "session:"
                  ∧ (__init__ op None).(expiration) = 1800)
  ∧ (∀ self override,
       effective_expiration self None = self.(expiration)
       ∧ effective_expiration self (Some override) = override)
  ∧ effective_expiration (__init__ None None) None = 1800.
Proof.
  repeat split.
Qed.

Section uuid_bytes.
Import Uuid.

Lemma byte_value_range b : 0 ≤ byte_value b < 2 ^ 8.
Proof. unfold byte_value. pose proof (Byte.to_N_bounded b). lia. Qed.

Lemma byte_value_inj b b' : byte_value b = byte_value b' → b = b'.
Proof.
  unfold byte_value. intros H. apply N2Z.inj in H.
  apply (inj Some). rewrite <- (Byte.of_to_N b), <- (Byte.of_to_N b'). by rewrite H.
Qed.

Lemma int_from_bytes_snoc_value bs b :
  int_from_bytes (bs ++ [b]) = int_from_bytes bs * 2 ^ 8 + byte_value b.
Proof. apply int_from_bytes_snoc. Qed.

(** Bit [j] of the byte at index [i] is bit [8 * (n - 1 - i) + j] of the
    number read from [n] bytes, most significant byte first. *)
Lemma int_from_bytes_testbit bs i b j :
  bs !! i = Some b → 0 ≤ j < 8 →
  Z.testbit (int_from_bytes bs) (8 * (Z.of_nat (length bs) - 1 - Z.of_nat i) + j)
  = Z.testbit (byte_value b) j.
Proof.
  revert i. induction bs as [|c bs IH] using rev_ind; intros i Hi Hj.
  { discriminate Hi. }
  rewrite int_from_bytes_snoc_value, length_app. cbn [length].
  pose proof (byte_value_range c) as Hc.
  destruct (decide (i < length bs)%nat) as [Hlt|Hge].
  - rewrite lookup_app_l in Hi by done.
    replace (8 * (Z.of_nat (length bs + 1) - 1 - Z.of_nat i) + j)
      with ((8 * (Z.of_nat (length bs) - 1 - Z.of_nat i) + j) + 8) by lia.
    rewrite <- Z.div_pow2_bits by lia.
    rewrite Z.div_add_l, Z.div_small, Z.add_0_r by lia.
    by apply IH.
  - assert (i = length bs) as ->.
    { apply lookup_lt_Some in Hi. rewrite length_app in Hi. cbn in Hi. lia. }
    rewrite list_lookup_middle in Hi by done. injection Hi as ->.
    replace (8 * (Z.of_nat (length bs + 1) - 1 - Z.of_nat (length bs)) + j)
      with j by lia.
    rewrite <- (Z.mod_pow2_bits_low _ 8) by lia.
    rewrite Z.add_comm, Z.mod_add, Z.mod_small by lia. reflexivity.
Qed.

(** The bits a byte keeps sit outside the version and variant fields. *)
Lemma kept_bits_not_fixed i j :
  (i < 16)%nat → 0 ≤ j < 8 → Z.testbit (kept_bits i) j = true →
  fixed_bit (8 * (16 - 1 - Z.of_nat i) + j) = false.
Proof.
  intros Hi Hj. unfold kept_bits, fixed_bit.
  destruct (Nat.eqb_spec i 6) as [->|H6]; [|destruct (Nat.eqb_spec i 8) as [->|H8]].
  - assert (H : j = 0 ∨ j = 1 ∨ j = 2 ∨ j = 3 ∨ j = 4 ∨ j = 5 ∨ j = 6 ∨ j = 7) by lia.
    destruct H as [->|[->|[->|[->|[->|[->|[->| ->]]]]]]];
      first [reflexivity | discriminate].
  - assert (H : j = 0 ∨ j = 1 ∨ j = 2 ∨ j = 3 ∨ j = 4 ∨ j = 5 ∨ j = 6 ∨ j = 7) by lia.
    destruct H as [->|[->|[->|[->|[->|[->|[->| ->]]]]]]];
      first [reflexivity | discriminate].
  - intros _. lia.
Qed.

(** Two sixteen-byte strings whose stamped numbers coincide agree, byte by
    byte, on the bits that [uuid4] keeps. *)
Lemma stamped_bytes_agree bs bs' i b b' :
  length bs = 16%nat → length bs' = 16%nat →
  stamp (int_from_bytes bs) = stamp (int_from_bytes bs') →
  bs !! i = Some b → bs' !! i = Some b' →
  Z.land (byte_value b) (kept_bits i) = Z.land (byte_value b') (kept_bits i).
Proof.
  intros Hlen Hlen' Hst Hb Hb'. apply Z.bits_inj'. intros j Hj.
  rewrite !Z.land_spec.
  destruct (Z_lt_le_dec j 8) as [Hlt|Hge].
  - destruct (Z.testbit (kept_bits i) j) eqn:Hk; [|by rewrite !andb_false_r].
    rewrite !andb_true_r.
    assert (Hi : (i < 16)%nat) by (apply lookup_lt_Some in Hb; lia).
    pose proof (kept_bits_not_fixed i j Hi ltac:(lia) Hk) as Hf.
    rewrite <- (int_from_bytes_testbit bs i b j Hb) by lia.
    rewrite <- (int_from_bytes_testbit bs' i b' j Hb') by lia.
    rewrite Hlen, Hlen'.
    apply (stamp_keeps_random_bits _ _ _ Hst); [lia|exact Hf].
  - rewrite (testbit_high (byte_value b) 8 j), (testbit_high (byte_value b') 8 j)
      by first [apply byte_value_range | lia].
    reflexivity.
Qed.

Lemma kept_bits_whole i b :
  i ≠ 6%nat → i ≠ 8%nat → Z.land (byte_value b) (kept_bits i) = byte_value b.
Proof.
  intros H6 H8. unfold kept_bits.
  rewrite (proj2 (Nat.eqb_neq i 6) H6), (proj2 (Nat.eqb_neq i 8) H8).
  change 255 with (Z.ones 8). rewrite Z.land_ones by lia.
  apply Z.mod_small, byte_value_range.
Qed.

End uuid_bytes.

(** C8: whatever sixteen bytes the random source hands to [uuid4],
    [generate_session_id] returns a 36-character string in the canonical
    UUID layout (8-4-4-4-12 lowercase hexadecimal digits) whose version digit
    is "4" and whose variant digit is one of "8", "9", "a", "b"; and the same
    string comes back for other random bytes only if the two byte strings
    agree on all 122 bits outside the version and variant fields: every byte
    other than bytes 6 and 8 is the same, and so are the low half of byte 6
    and the low six bits of byte 8. *)
Theorem generate_session_id_is_uuid4_text self (urandom : list Byte.byte) :
  length urandom = 16%nat →
  ∃ session_id,
    generate_session_id self urandom = Some session_id
    ∧ matches uuid4_pattern session_id = true
    ∧ String.length session_id = 36%nat
    ∧ (∀ urandom', length urandom' = 16%nat →
         generate_session_id self urandom' = Some session_id →
         ∀ i b b', urandom !! i = Some b → urandom' !! i = Some b' →
           Z.land (byte_value b) (kept_bits i)
           = Z.land (byte_value b') (kept_bits i)
           ∧ (i ≠ 6%nat → i ≠ 8%nat → b = b')).
Proof.
  intros Hlen. unfold generate_session_id. rewrite (uuid4_stamp urandom Hlen).
  eexists. split; [reflexivity|].
  set (x := Uuid.int_from_bytes urandom).
  assert (Hx : 0 ≤ x < 2 ^ 128).
  { pose proof (int_from_bytes_range urandom) as Hr. rewrite Hlen in Hr. exact Hr. }
  assert (Hfmt : matches uuid4_pattern (Uuid.UUID_str (stamp x)) = true
                 ∧ String.length (Uuid.UUID_str (stamp x)) = 36%nat).
  { apply (layout_matches
             (map (λ i, Uuid.hex_digit (Uuid.nibble (stamp x) (Z.of_nat i)))
                  (rev (seq 0 32)))).
    - rewrite length_map, length_rev, length_seq. reflexivity.
    - apply forallb_forall. intros c Hc. apply in_map_iff in Hc as (i & <- & _).
      apply hex_digit_is_hex, nibble_range. lia.
    - change (is_version4 (Uuid.hex_digit (Uuid.nibble (stamp x) 19)) = true).
      rewrite version_nibble. reflexivity.
    - change (is_rfc4122_variant (Uuid.hex_digit (Uuid.nibble (stamp x) 15)) = true).
      apply hex_digit_variant, variant_nibble. }
  destruct Hfmt as [Hmatch Hlength].
  split; [exact Hmatch|]. split; [exact Hlength|].
  intros urandom' Hlen' Hsame i b b' Hb Hb'.
  rewrite (uuid4_stamp urandom' Hlen') in Hsame.
  change (Some (Uuid.UUID_str (stamp (Uuid.int_from_bytes urandom')))
          = Some (Uuid.UUID_str (stamp x))) in Hsame.
  apply (inj Some) in Hsame.
  assert (Hx' : 0 ≤ Uuid.int_from_bytes urandom' < 2 ^ 128).
  { pose proof (int_from_bytes_range urandom') as Hr. rewrite Hlen' in Hr. exact Hr. }
  apply UUID_str_inj in Hsame; [|by apply stamp_range..].
  assert (Hkept : Z.land (byte_value b) (kept_bits i)
                  = Z.land (byte_value b') (kept_bits i)).
  { symmetry in Hsame.
    exact (stamped_bytes_agree urandom urandom' i b b' Hlen Hlen' Hsame Hb Hb'). }
  split; [exact Hkept|].
  intros H6 H8. rewrite !kept_bits_whole in Hkept by done.
  by apply byte_value_inj.
Qed.

Lemma generate_session_id_is_uuid4_text_witness :
  ∃ session_id,
    generate_session_id (__init__ None None)
      (repeat Byte.x00 15 ++ [Byte.xff]) = Some session_id
    ∧ matches uuid4_pattern session_id = true
    ∧ String.length session_id = 36%nat.
Proof.
  destruct (generate_session_id_is_uuid4_text (__init__ None None)
              (repeat Byte.x00 15 ++ [Byte.xff]) eq_refl)
    as (session_id & Hid & Hpat & Hlen & _).
  exists session_id. auto.
Defined.

(** * Further properties of the factory *)

Section factory_runs.
Implicit Types (init : Drivers) (kwargs : Kwargs) (model_type : ModelType)
  (backend : string).

Lemma only_keys_ext keys kwargs kwargs' :
  (∀ k, k ∈ keys → kwargs !! k = kwargs' !! k) →
  only_keys keys kwargs = only_keys keys kwargs'.
Proof.
  intros H. apply map_eq; intros k. rewrite !lookup_only_keys.
  case_decide; [by apply H|reflexivity].
Qed.

Lemma cache_tier_ext kwargs kwargs' :
  (∀ k, k ∈ inspected_keys "hybrid" → kwargs !! k = kwargs' !! k) →
  cache_tier kwargs = cache_tier kwargs'.
Proof.
  change (inspected_keys "hybrid")
    with ("db_config" :: "_cache_backend" :: redis_keys).
  intros H. unfold cache_tier.
  assert (Hs : selects_redis kwargs ↔ selects_redis kwargs').
  { unfold selects_redis.
    rewrite !(H "db"), !(H "username"), !(H "password"), !(H "_cache_backend")
      by key_in. tauto. }
  rewrite (decide_ext _ _ _ _ Hs).
  rewrite (only_keys_ext redis_keys kwargs kwargs'),
          (only_keys_ext memcached_keys kwargs kwargs'); [done| |].
  - intros k Hk. apply H. revert Hk. unfold memcached_keys, redis_keys.
    rewrite !elem_of_cons. tauto.
  - intros k Hk. apply H. rewrite !elem_of_cons. tauto.
Qed.

Lemma made_subseteq init planned s : s ∈ made init planned → s ∈ planned.
Proof.
  induction planned as [|p planned IH]; cbn [made]; [done|].
  rewrite !elem_of_cons. intros [->|Hs]; [tauto|].
  destruct (init p); [by apply elem_of_nil in Hs|]. right. by apply IH.
Qed.

Lemma single_backend_run_redis init model_type kwargs :
  get_session_storage init "redis" model_type kwargs
  = construct init (RedisSessionStorage (only_keys redis_keys kwargs)).
Proof. reflexivity. Qed.

Lemma single_backend_run_memcached init model_type kwargs :
  get_session_storage init "memcached" model_type kwargs
  = construct init (MemcachedSessionStorage (only_keys memcached_keys kwargs)).
Proof. reflexivity. Qed.

Lemma single_backend_run_database init model_type kwargs :
  get_session_storage init "database" model_type kwargs
  = construct init (DatabaseSessionStorage (only_keys database_keys kwargs)).
Proof. reflexivity. Qed.

(** Every constructor call of a run carries the bag cut down to the
    allow-list of its class. *)
Lemma constructed_store_kwargs init backend model_type kwargs store :
  store ∈ constructed (get_session_storage init backend model_type kwargs) →
  store_kwargs store = only_keys (allow_list store) kwargs.
Proof.
  destruct (decide (backend = "hybrid")) as [->|Hh].
  - destruct (hybrid_cases init model_type kwargs) as [[_ ->]|(d & _ & _ & ->)].
    + cbn [constructed]. rewrite elem_of_nil. tauto.
    + cbv zeta. rewrite constructed_in_order. intros Hs.
      apply made_subseteq in Hs. revert Hs.
      rewrite !elem_of_cons, elem_of_nil.
      intros [->|[->|[->|[]]]]; try reflexivity.
      destruct (cache_tier_cases kwargs) as [[_ ->]|[_ ->]]; reflexivity.
  - rewrite run_known by done.
    repeat (destruct (String.eqb _ _);
            [rewrite constructed_construct, list_elem_of_singleton;
             intros ->; reflexivity|]).
    cbn [raise constructed]. rewrite elem_of_nil. tauto.
Qed.

End factory_runs.

(** X1: with backend "hybrid", a [db_config] that is present but falsy
    ([None], [False], [0], the empty string, an empty container) is
    rejected like a missing one: the ValueError is raised and no constructor
    is called. *)
Theorem hybrid_falsy_db_config_raises init model_type (kwargs : Kwargs) db_config :
  kwargs !! "db_config" = Some db_config →
  truthy db_config = false →
  get_session_storage init "hybrid" model_type kwargs
  = MkRun [] (inl db_config_error).
Proof.
  intros Hd Ht. apply hybrid_falsy. rewrite Hd. exact Ht.
Qed.

Lemma hybrid_falsy_db_config_raises_witness :
  get_session_storage lenient "hybrid" BaseModel
    (<["db_config" := VNone]> bag_redis_forced)
  = MkRun [] (inl db_config_error)
  ∧ get_session_storage lenient "hybrid" BaseModel
      (<["db_config" := VObj 2 false (λ _, false)]> bag_redis_forced)
    = MkRun [] (inl db_config_error).
Proof.
  split.
  - apply (hybrid_falsy_db_config_raises lenient BaseModel _ VNone); reflexivity.
  - apply (hybrid_falsy_db_config_raises lenient BaseModel _
             (VObj 2 false (λ _, false))); reflexivity.
Defined.

(** X2: an exception out of the factory is either one of its own two
    configuration errors, raised before any constructor is called, or the
    exception of the constructor called last; when the factory returns, no
    constructor has raised, the store returned is the last one constructed,
    and there were three constructor calls for "hybrid" and one for any
    other backend. *)
Theorem factory_raises_before_constructing
    init backend model_type (kwargs : Kwargs) :
  let r := get_session_storage init backend model_type kwargs in
  match outcome r with
  | inl e =>
      (constructed r = []
       ∧ (((backend ∉ backends) ∧ e = unknown_backend_error backend)
          ∨ (backend = "hybrid" ∧ e = db_config_error)))
      ∨ (∃ s, last (constructed r) = Some s ∧ init s = Some e)
  | inr store =>
      last (constructed r) = Some store
      ∧ length (constructed r) = (if String.eqb backend "hybrid" then 3 else 1)%nat
      ∧ ∀ s, s ∈ constructed r → init s = None
  end.
Proof.
  intros r. subst r.
  destruct (decide (backend = "hybrid")) as [->|Hh].
  - destruct (hybrid_cases init model_type kwargs) as [[_ ->]|(d & _ & _ & ->)].
    + cbn [outcome constructed]. left. split; [reflexivity|]. right. by split.
    + cbv zeta.
      destruct (in_order_cases init (cache_tier kwargs)
                  (DatabaseSessionStorage (only_keys database_keys kwargs))
                  (HybridSessionStorage (cache_tier kwargs)
                     (DatabaseSessionStorage (only_keys database_keys kwargs))
                     (only_keys ["prefix"; "expiration"] kwargs)))
        as [(e & s & -> & Hl & He)|(-> & _ & Ha & Hb & Hc)];
        cbn [outcome constructed].
      * right. by exists s.
      * split; [reflexivity|]. split; [reflexivity|].
        intros s. rewrite !elem_of_cons, elem_of_nil.
        intros [->|[->|[->|[]]]]; assumption.
  - rewrite run_known by done.
    rewrite (proj2 (String.eqb_neq backend "hybrid") Hh).
    assert (Hone : ∀ s,
      match outcome (construct init s) with
      | inl e =>
          (constructed (construct init s) = []
           ∧ (((backend ∉ backends) ∧ e = unknown_backend_error backend)
              ∨ (backend = "hybrid" ∧ e = db_config_error)))
          ∨ (∃ s', last (constructed (construct init s)) = Some s'
                   ∧ init s' = Some e)
      | inr store =>
          last (constructed (construct init s)) = Some store
          ∧ length (constructed (construct init s)) = 1%nat
          ∧ ∀ s', s' ∈ constructed (construct init s) → init s' = None
      end).
    { intros s. unfold construct. destruct (init s) as [e|] eqn:He;
        cbn [outcome constructed].
      - right. by exists s.
      - split; [reflexivity|]. split; [reflexivity|].
        intros s'. rewrite list_elem_of_singleton. by intros ->. }
    destruct (String.eqb_spec backend "redis") as [->|?]; [apply Hone|].
    destruct (String.eqb_spec backend "memcached") as [->|?]; [apply Hone|].
    destruct (String.eqb_spec backend "memory") as [->|?]; [apply Hone|].
    destruct (String.eqb_spec backend "database") as [->|?]; [apply Hone|].
    cbn [raise outcome constructed]. left. split; [reflexivity|]. left.
    split; [|reflexivity]. rewrite elem_of_backends. tauto.
Qed.

(** X3: the whole run (constructor calls and outcome) depends on the bag only
    through the entries under the keys the backend's branch looks at: two
    bags that agree on those keys give the same run. *)
Theorem run_depends_on_inspected_keys
    init backend model_type (kwargs kwargs' : Kwargs) :
  (∀ k, k ∈ inspected_keys backend → kwargs !! k = kwargs' !! k) →
  get_session_storage init backend model_type kwargs
  = get_session_storage init backend model_type kwargs'.
Proof.
  intros H. destruct (decide (backend = "hybrid")) as [->|Hh].
  - assert (Hd : kwargs !! "db_config" = kwargs' !! "db_config").
    { apply H. change (inspected_keys "hybrid")
        with ("db_config" :: "_cache_backend" :: redis_keys).
      rewrite !elem_of_cons. tauto. }
    assert (Hk : ∀ keys, keys ⊆ redis_keys ∨ keys ⊆ database_keys →
                 only_keys keys kwargs = only_keys keys kwargs').
    { intros keys Hsub. apply only_keys_ext. intros k Hk. apply H.
      change (inspected_keys "hybrid")
        with ("db_config" :: "_cache_backend" :: redis_keys).
      destruct Hsub as [Hsub|Hsub]; apply Hsub in Hk; revert Hk;
        unfold redis_keys, database_keys; rewrite !elem_of_cons, elem_of_nil;
        tauto. }
    destruct (hybrid_cases init model_type kwargs)
      as [[Ht ->]|(d & Hv & Ht & ->)].
    + symmetry. apply hybrid_falsy. rewrite <- Hd. exact Ht.
    + rewrite Hd in Hv. rewrite (hybrid_run init model_type kwargs' d Hv Ht).
      cbv zeta. rewrite (cache_tier_ext kwargs kwargs' H).
      rewrite (Hk database_keys), (Hk ["prefix"; "expiration"]); [done| |].
      * left. unfold redis_keys. intros k. rewrite !elem_of_cons. tauto.
      * right. done.
  - rewrite !run_known by done. revert H. unfold inspected_keys.
    repeat (destruct (String.eqb _ _);
            [intros H; rewrite (only_keys_ext _ kwargs kwargs' H); reflexivity|]).
    reflexivity.
Qed.

Lemma run_depends_on_inspected_keys_witness :
  get_session_storage lenient "memcached" BaseModel bag_redis_forced
  = get_session_storage lenient "memcached" BaseModel
      (<["host" := VStr "cache.local"]> (<["expiration" := VInt 60]> ∅)).
Proof.
  apply run_depends_on_inspected_keys.
  intros k Hk. change (inspected_keys "memcached") with memcached_keys in Hk.
  unfold memcached_keys in Hk. rewrite !elem_of_cons, elem_of_nil in Hk.
  destruct Hk as [->|[->|[->|[->|[->|[]]]]]]; reflexivity.
Defined.

(** X4: a hybrid store is the coordinator over what the single backends
    build from the same bag: its cache tier is the store the "redis" or the
    "memcached" backend returns, its durable tier the store the "database"
    backend returns, and its own options those the "memory" backend hands
    to its driver. *)
Theorem hybrid_tiers_are_single_backend_stores
    init model_type (kwargs : Kwargs) store :
  outcome (get_session_storage init "hybrid" model_type kwargs) = inr store →
  ∃ cache_storage database_storage hybrid_kwargs,
    store = HybridSessionStorage cache_storage database_storage hybrid_kwargs
    ∧ (outcome (get_session_storage init "redis" model_type kwargs)
       = inr cache_storage
       ∨ outcome (get_session_storage init "memcached" model_type kwargs)
         = inr cache_storage)
    ∧ outcome (get_session_storage init "database" model_type kwargs)
      = inr database_storage
    ∧ constructed (get_session_storage init "memory" model_type kwargs)
      = [MemorySessionStorage hybrid_kwargs].
Proof.
  destruct (hybrid_cases init model_type kwargs) as [[_ ->]|(d & _ & _ & ->)];
    [discriminate|].
  cbv zeta.
  destruct (in_order_cases init (cache_tier kwargs)
              (DatabaseSessionStorage (only_keys database_keys kwargs))
              (HybridSessionStorage (cache_tier kwargs)
                 (DatabaseSessionStorage (only_keys database_keys kwargs))
                 (only_keys ["prefix"; "expiration"] kwargs)))
    as [(e & s & -> & _)|(-> & _ & Ha & Hb & _)]; [discriminate|].
  cbn [outcome]. intros [= <-].
  eexists _, _, _. split; [reflexivity|].
  split; [|split].
  - destruct (cache_tier_cases kwargs) as [[_ Hc]|[_ Hc]];
      rewrite Hc in Ha |- *; [left|right].
    + rewrite (single_backend_run_redis init), outcome_construct, Ha. reflexivity.
    + rewrite (single_backend_run_memcached init), outcome_construct, Ha.
      reflexivity.
  - rewrite (single_backend_run_database init), outcome_construct, Hb.
    reflexivity.
  - apply constructed_construct.
Qed.

Lemma hybrid_tiers_are_single_backend_stores_witness :
  ∃ store,
    outcome (get_session_storage lenient "hybrid" BaseModel bag_redis_forced)
    = inr store
    ∧ ∃ cache_storage database_storage hybrid_kwargs,
        store = HybridSessionStorage cache_storage database_storage hybrid_kwargs
        ∧ outcome (get_session_storage lenient "database" BaseModel bag_redis_forced)
          = inr database_storage
        ∧ constructed (get_session_storage lenient "memory" BaseModel bag_redis_forced)
          = [MemorySessionStorage hybrid_kwargs].
Proof.
  eexists. split; [vm_compute; reflexivity|].
  destruct (hybrid_tiers_are_single_backend_stores lenient BaseModel
              bag_redis_forced _ ltac:(vm_compute; reflexivity))
    as (c & d & h & Heq & _ & Hd & Hm).
  exists c, d, h. auto.
Defined.

(** X5: the three parts of a hybrid store are namespaced alike: the cache
    tier, the durable tier and the coordinator each receive the bag's
    "prefix" and the bag's "expiration" (or none of them does, when the bag
    has none). *)
Theorem hybrid_tiers_share_common_options
    init model_type (kwargs : Kwargs)
    cache_storage database_storage hybrid_kwargs k :
  outcome (get_session_storage init "hybrid" model_type kwargs)
  = inr (HybridSessionStorage cache_storage database_storage hybrid_kwargs) →
  k = "prefix" ∨ k = "expiration" →
  store_kwargs cache_storage !! k = kwargs !! k
  ∧ store_kwargs database_storage !! k = kwargs !! k
  ∧ hybrid_kwargs !! k = kwargs !! k.
Proof.
  destruct (hybrid_cases init model_type kwargs) as [[_ ->]|(d & _ & _ & ->)];
    [discriminate|].
  cbv zeta.
  destruct (in_order_cases init (cache_tier kwargs)
              (DatabaseSessionStorage (only_keys database_keys kwargs))
              (HybridSessionStorage (cache_tier kwargs)
                 (DatabaseSessionStorage (only_keys database_keys kwargs))
                 (only_keys ["prefix"; "expiration"] kwargs)))
    as [(e & s & -> & _)|(-> & _)]; [discriminate|].
  cbn [outcome]. intros [= <- <- <-] Hk.
  assert (Hin : ∀ keys, keys = redis_keys ∨ keys = memcached_keys
                        ∨ keys = database_keys ∨ keys = ["prefix"; "expiration"] →
                        only_keys keys kwargs !! k = kwargs !! k).
  { intros keys Hkeys. rewrite lookup_only_keys. apply decide_True.
    destruct Hkeys as [->|[->|[->| ->]]]; destruct Hk as [->| ->]; key_in. }
  split; [|split].
  - destruct (cache_tier_cases kwargs) as [[_ ->]|[_ ->]];
      cbn [store_kwargs]; apply Hin; tauto.
  - cbn [store_kwargs]. apply Hin. tauto.
  - apply Hin. tauto.
Qed.

Lemma hybrid_tiers_share_common_options_witness :
  ∃ cache_storage database_storage hybrid_kwargs,
    outcome (get_session_storage lenient "hybrid" BaseModel bag_memcached)
    = inr (HybridSessionStorage cache_storage database_storage hybrid_kwargs)
    ∧ store_kwargs cache_storage !! "expiration" = Some (VInt 60)
    ∧ store_kwargs database_storage !! "expiration" = Some (VInt 60)
    ∧ hybrid_kwargs !! "expiration" = Some (VInt 60).
Proof.
  eexists _, _, _. split; [vm_compute; reflexivity|].
  refine (hybrid_tiers_share_common_options lenient BaseModel bag_memcached _ _ _
            "expiration" _ _).
  - vm_compute; reflexivity.
  - right; reflexivity.
Defined.

(** X6: no driver is handed a key outside the allow-list of its class: an
    entry a constructed store holds is an entry of the bag under an
    allow-listed key; "_cache_backend" reaches no constructor, and
    "db_config" reaches none but [DatabaseSessionStorage]. *)
Theorem drivers_never_receive_foreign_keys
    init backend model_type (kwargs : Kwargs) store k v :
  store ∈ constructed (get_session_storage init backend model_type kwargs) →
  store_kwargs store !! k = Some v →
  k ∈ allow_list store
  ∧ kwargs !! k = Some v
  ∧ k ≠ "_cache_backend"
  ∧ (k = "db_config" → ∃ database_kwargs, store = DatabaseSessionStorage database_kwargs).
Proof.
  intros Hc Hv.
  rewrite (constructed_store_kwargs init backend model_type kwargs store Hc) in Hv.
  rewrite lookup_only_keys in Hv. case_decide as Hin; [|discriminate].
  split; [exact Hin|]. split; [exact Hv|].
  destruct store; cbn [allow_list] in Hin; revert Hin;
    unfold redis_keys, memcached_keys, memory_keys, database_keys;
    rewrite !elem_of_cons, elem_of_nil;
    (intros Hin; split;
       [intros ->; repeat destruct Hin as [Hin|Hin];
        first [discriminate Hin | contradiction]|]);
    intros ->;
    try (exfalso; repeat destruct Hin as [Hin|Hin];
         first [discriminate Hin | contradiction]).
  eexists. reflexivity.
Qed.

Lemma drivers_never_receive_foreign_keys_witness :
  "host" ∈ memcached_keys ∧ bag_memcached !! "host" = Some (VStr "cache.local").
Proof.
  destruct (drivers_never_receive_foreign_keys lenient "hybrid" BaseModel
              bag_memcached
              (MemcachedSessionStorage (only_keys memcached_keys bag_memcached))
              "host" (VStr "cache.local"))
    as (Hin & Hbag & _).
  - vm_compute. apply list_elem_of_here.
  - vm_compute. reflexivity.
  - split; [exact Hin|exact Hbag].
Defined.

(** X7: for the hybrid backend, passing "_cache_backend" as the string
    "redis" is the same as leaving the option out: same constructor calls,
    same outcome. *)
Theorem cache_backend_redis_is_the_default init model_type (kwargs : Kwargs) :
  get_session_storage init "hybrid" model_type
    (<["_cache_backend" := VStr "redis"]> kwargs)
  = get_session_storage init "hybrid" model_type (delete "_cache_backend" kwargs).
Proof.
  set (kw1 := <["_cache_backend" := VStr "redis"]> kwargs).
  set (kw2 := delete "_cache_backend" kwargs).
  assert (Hoth : ∀ k, k ≠ "_cache_backend" → kw1 !! k = kw2 !! k).
  { intros k Hk. unfold kw1, kw2.
    rewrite lookup_insert_ne, lookup_delete_ne by done. reflexivity. }
  assert (Hkeys : ∀ keys, "_cache_backend" ∉ keys →
                  only_keys keys kw1 = only_keys keys kw2).
  { intros keys Hn. apply only_keys_ext. intros k Hk. apply Hoth.
    intros ->. contradiction. }
  assert (Hd : kw1 !! "db_config" = kw2 !! "db_config") by (by apply Hoth).
  destruct (hybrid_cases init model_type kw1) as [[Ht ->]|(d & Hv & Ht & ->)].
  - symmetry. apply hybrid_falsy. rewrite <- Hd. exact Ht.
  - rewrite Hd in Hv. rewrite (hybrid_run init model_type kw2 d Hv Ht). cbv zeta.
    assert (Hc : cache_tier kw1 = cache_tier kw2).
    { unfold cache_tier. rewrite !decide_True.
      - f_equal. apply Hkeys. key_notin.
      - right; left. apply lookup_delete_eq.
      - right; right. exists (VStr "redis").
        split; [apply lookup_insert_eq|reflexivity]. }
    rewrite Hc, (Hkeys database_keys), (Hkeys ["prefix"; "expiration"]);
      [done|key_notin|key_notin].
Qed.

(** X11: [SessionStorage] called with a keyword argument named
    "model_type" raises a TypeError before any constructor is called,
    whatever backend is named and whatever else the bag holds. *)
Theorem SessionStorage_rejects_model_type init backend (kwargs : Kwargs) v :
  kwargs !! "model_type" = Some v →
  ∃ msg, SessionStorage.__new__ init backend kwargs = MkRun [] (inl (TypeError msg)).
Proof.
  intros Hm. eexists. unfold SessionStorage.__new__, py_in.
  rewrite bool_decide_eq_true_2; [reflexivity|]. rewrite Hm. by eexists.
Qed.

Lemma SessionStorage_rejects_model_type_witness :
  ∃ msg, SessionStorage.__new__ lenient (Some "redis") bag_model_type
         = MkRun [] (inl (TypeError msg)).
Proof.
  exact (SessionStorage_rejects_model_type lenient (Some "redis") bag_model_type
           _ eq_refl).
Defined.

(** * Further properties of the key namespacer *)

Section string_facts.
Implicit Types (p q r s t : string).

Lemma prefix_append p s : String.prefix p (p ++ s) = true.
Proof.
  induction p as [|a p IH]; [by destruct s|].
  simpl. destruct (ascii_dec a a); [exact IH|contradiction].
Qed.

Lemma substring_whole s : substring 0 (String.length s) s = s.
Proof. induction s as [|a s IH]; [reflexivity|]. simpl. by rewrite IH. Qed.

Lemma substring_after_append p s :
  substring (String.length p) (String.length s) (p ++ s) = s.
Proof. induction p as [|a p IH]; [apply substring_whole|exact IH]. Qed.

Lemma length_append p s :
  String.length (p ++ s) = (String.length p + String.length s)%nat.
Proof.
  induction p as [|a p IH]; [reflexivity|].
  change (S (String.length (p ++ s)) = S (String.length p + String.length s)).
  by rewrite IH.
Qed.

Lemma append_empty_r s : s ++ "" = s.
Proof.
  induction s as [|a s IH]; [reflexivity|].
  change (String a (s ++ "") = String a s). by rewrite IH.
Qed.

Lemma append_eq_comparable p q s t :
  p ++ s = q ++ t → (∃ r, q = p ++ r) ∨ (∃ r, p = q ++ r).
Proof.
  revert q. induction p as [|a p IH]; intros q H.
  - left. by exists q.
  - destruct q as [|b q]; [right; by exists (String a p)|].
    change (String a (p ++ s) = String b (q ++ t)) in H. injection H as -> H.
    destruct (IH q H) as [[r ->]|[r ->]]; [left|right]; by exists r.
Qed.

End string_facts.

(** X8: the session id can be read back from the key: the key starts with
    the store's prefix, what follows the prefix is the id, and the key is as
    long as the two together. *)
Theorem get_key_round_trip (self : AbstractSessionStorage.t) (session_id : string) :
  String.prefix self.(prefix) (get_key self session_id) = true
  ∧ substring (String.length self.(prefix)) (String.length session_id)
      (get_key self session_id) = session_id
  ∧ String.length (get_key self session_id)
    = (String.length self.(prefix) + String.length session_id)%nat.
Proof.
  unfold get_key. split; [apply prefix_append|].
  split; [apply substring_after_append|apply length_append].
Qed.

(** X9: two stores can produce the same key, for some pair of session ids,
    exactly when the prefix of one extends the prefix of the other (equal
    prefixes and an empty prefix included); prefixes of which neither extends
    the other keep the key spaces apart. *)
Theorem key_spaces_overlap_iff (a b : AbstractSessionStorage.t) :
  (∃ s t, get_key a s = get_key b t)
  ↔ (∃ r, b.(prefix) = a.(prefix) ++ r) ∨ (∃ r, a.(prefix) = b.(prefix) ++ r).
Proof.
  unfold get_key. split.
  - intros (s & t & H). exact (append_eq_comparable _ _ _ _ H).
  - intros [[r ->]|[r ->]].
    + exists r, "". by rewrite append_empty_r.
    + exists "", r. by rewrite append_empty_r.
Qed.

(** * Further properties of the generated ids *)

Section uuid_fixed_bits.
Import Uuid.

(** On the six overwritten bits [stamp] gives the same result for every
    input. *)
Lemma testbit_stamp_fixed x y k :
  fixed_bit k = true → Z.testbit (stamp x) k = Z.testbit (stamp y) k.
Proof.
  intros Hf. unfold fixed_bit in Hf.
  assert (H : k = 62 ∨ k = 63 ∨ k = 76 ∨ k = 77 ∨ k = 78 ∨ k = 79) by lia.
  destruct H as [->|[->|[->|[->|[->| ->]]]]];
    rewrite !testbit_stamp by lia;
    match goal with
    | |- context [Z.testbit x ?i] =>
        destruct (Z.testbit x i), (Z.testbit y i); reflexivity
    end.
Qed.

Lemma stamp_eq_iff x y :
  stamp x = stamp y
  ↔ ∀ k, 0 ≤ k → fixed_bit k = false → Z.testbit x k = Z.testbit y k.
Proof.
  split.
  - intros H k Hk Hf. exact (stamp_keeps_random_bits x y k H Hk Hf).
  - intros H. apply Z.bits_inj'. intros k Hk.
    destruct (fixed_bit k) eqn:Hf; [by apply testbit_stamp_fixed|].
    rewrite !testbit_stamp_random by done. by apply H.
Qed.

End uuid_fixed_bits.

(** X10: two calls of [generate_session_id] return the same id exactly when
    the 128-bit numbers read from their random bytes agree on every bit
    outside the version and variant fields: the id carries the 122 other
    bits and nothing of the six overwritten ones. *)
Theorem session_ids_equal_iff_random_bits_agree
    (self : AbstractSessionStorage.t) (urandom urandom' : list Byte.byte) :
  length urandom = 16%nat →
  length urandom' = 16%nat →
  generate_session_id self urandom = generate_session_id self urandom'
  ↔ ∀ k, 0 ≤ k → fixed_bit k = false →
      Z.testbit (Uuid.int_from_bytes urandom) k
      = Z.testbit (Uuid.int_from_bytes urandom') k.
Proof.
  intros Hlen Hlen'. unfold generate_session_id.
  rewrite (uuid4_stamp urandom Hlen), (uuid4_stamp urandom' Hlen').
  rewrite <- stamp_eq_iff.
  assert (Hr : 0 ≤ Uuid.int_from_bytes urandom < 2 ^ 128).
  { pose proof (int_from_bytes_range urandom) as H. by rewrite Hlen in H. }
  assert (Hr' : 0 ≤ Uuid.int_from_bytes urandom' < 2 ^ 128).
  { pose proof (int_from_bytes_range urandom') as H. by rewrite Hlen' in H. }
  split.
  - intros H. apply (inj Some) in H.
    apply UUID_str_inj; [by apply stamp_range..|exact H].
  - intros ->. reflexivity.
Qed.

Lemma session_ids_equal_iff_random_bits_agree_witness :
  generate_session_id (__init__ None None) (repeat Byte.x00 16)
  = generate_session_id (__init__ None None)
      (repeat Byte.x00 6 ++ [Byte.xf0] ++ repeat Byte.x00 9).
Proof.
  apply (session_ids_equal_iff_random_bits_agree (__init__ None None)
           (repeat Byte.x00 16)
           (repeat Byte.x00 6 ++ [Byte.xf0] ++ repeat Byte.x00 9)
           eq_refl eq_refl).
  intros k Hk Hf.
  change (Uuid.int_from_bytes (repeat Byte.x00 16)) with 0.
  change (Uuid.int_from_bytes (repeat Byte.x00 6 ++ [Byte.xf0] ++ repeat Byte.x00 9))
    with (Z.shiftl (Z.ones 4) 76).
  rewrite Z.bits_0, Z.shiftl_spec, Z.testbit_ones by lia.
  unfold fixed_bit in Hf. lia.
Defined.
